(** * STABLEFUN: the stablecoin creation flow

    A shallow embedding of the transaction orchestration code of the
    repository:

    - [src/utils/stablecoin-program.ts]: class [StablecoinProgram]
      ([createStablecoin], [sendTransaction]);
    - [src/components/CreateStablecoin.tsx]: the source holds two listings of
      this component.  The first one (module [ViaProgram]) validates the bond
      mint and delegates to [StablecoinProgram.createStablecoin]; the second
      one (module [Inline]) assembles, signs, sends and confirms the
      transaction itself and owns [checkBondBalance].

    Asynchronous calls are sequential at every [await], so the flows are
    written in a state-and-exception monad.  Everything the code obtains from
    the outside (RPC node, wallet, key generation) is an oracle of the
    [World], indexed by a logical clock so that two calls of the same method
    may answer differently.  Every external call, every operation on the
    transaction envelope and every toast is appended to a trace.
    Console logging is not modelled. *)

From Stdlib Require Import String Ascii List ZArith NArith QArith Bool Lia.
Import ListNotations.
Local Open Scope string_scope.
Local Open Scope Z_scope.

Set Implicit Arguments.

(* ================================================================== *)
(** * JavaScript values the flows handle *)

(** A thrown value: an [Error] instance with its [message], or anything
    else (for which [instanceof Error] is false and [.message] is
    undefined). *)
Inductive exn : Type :=
| ErrorObj (message : string)
| NonError.

(** The completion of a call that may throw. *)
Inductive result (A : Type) : Type :=
| Ok (a : A)
| Throw (e : exn).
Arguments Ok {A} a.
Arguments Throw {A} e.

(** Truthiness of a string: only the empty string is falsy. *)
Definition truthy_string (s : string) : bool :=
  match s with
  | EmptyString => false
  | String _ _ => true
  end.

(** [a || b] on strings. *)
Definition or_string (a b : string) : string :=
  if truthy_string a then a else b.

(** Plain JSON data, as the RPC client hands it over. *)
#[local] Unset Elimination Schemes.
Inductive Json : Type :=
| JNull
| JBool (b : bool)
| JNumber (z : Z)
| JString (s : string)
| JArray (items : list Json)
| JObject (fields : list (string * Json)).
#[local] Set Elimination Schemes.

(* ================================================================== *)
(** * web3.js data *)

(** A public key is its 32 bytes. *)
Record PublicKey : Type := mkPublicKey { pk_bytes : list N }.

Record Keypair : Type := mkKeypair {
  kp_publicKey : PublicKey;
  kp_secretKey : list N
}.

Definition Blockhash := string.
Definition TransactionSignature := string.

(** The answer of [connection.getLatestBlockhash()]. *)
Record BlockhashWithExpiryBlockHeight : Type := mkBlockhashInfo {
  blockhash : Blockhash;
  lastValidBlockHeight : N
}.

(** [TransactionError = {} | string]: the node sends either a string
    ("AccountInUse") or an object ({"InstructionError": [2, {"Custom": 1}]}). *)
Inductive TransactionError : Type :=
| TxErrString (s : string)
| TxErrObject (fields : list (string * Json)).

(** Truthiness: objects are truthy, a string is truthy unless empty. *)
Definition truthy_err (e : TransactionError) : bool :=
  match e with
  | TxErrString s => truthy_string s
  | TxErrObject _ => true
  end.

(** [err.toString()]: a string is itself, a plain object inherits
    [Object.prototype.toString]. *)
Definition TransactionError_toString (e : TransactionError) : string :=
  match e with
  | TxErrString s => s
  | TxErrObject _ => "[object Object]"
  end.

(** [confirmation.value]: [err] is [null] or a [TransactionError]. *)
Record SignatureResult : Type := mkSignatureResult {
  err : option TransactionError
}.

(** An argument handed to a program method. *)
Inductive JsValue : Type :=
| VString (s : string)
| VNumber (z : Z).

(** The three kinds of instruction the flows build, each represented by the
    builder call that makes it. *)
Inductive Instruction : Type :=
| SystemProgram_createAccount
    (fromPubkey newAccountPubkey : PublicKey) (space lamports : N)
    (programId : PublicKey)
| createInitializeMintInstruction
    (mint : PublicKey) (decimals : Z) (mintAuthority freezeAuthority : PublicKey)
| ProgramInstruction
    (programId : PublicKey) (method : string) (args : list JsValue)
    (keys : list PublicKey) (data : list N).

(** A legacy [Transaction] object. *)
Record Transaction : Type := mkTransaction {
  feePayer : option PublicKey;
  recentBlockhash : option Blockhash;
  tx_lastValidBlockHeight : option N;
  instructions : list Instruction;
  signatures : list PublicKey
}.

(** [new Transaction({feePayer, blockhash, lastValidBlockHeight})]. *)
Definition Transaction_new (fp : PublicKey) (bh : Blockhash) (lvh : N)
  : Transaction :=
  {| feePayer := Some fp;
     recentBlockhash := Some bh;
     tx_lastValidBlockHeight := Some lvh;
     instructions := [];
     signatures := [] |}.

(** [transaction.add(...items)] pushes the items in argument order. *)
Definition Transaction_add (tx : Transaction) (items : list Instruction)
  : Transaction :=
  {| feePayer := feePayer tx;
     recentBlockhash := recentBlockhash tx;
     tx_lastValidBlockHeight := tx_lastValidBlockHeight tx;
     instructions := instructions tx ++ items;
     signatures := signatures tx |}.

(** [transaction.sign(...signers)] discards earlier signatures and signs
    with the given keypairs.  The field records the keys that have signed,
    in call order; the order of the signature slots, which the library takes
    from the compiled message (fee payer first, still unsigned), is not
    modelled.  In the flows below the blockhash and the fee payer are set and
    the signers are accounts of the appended instructions, where the call
    does not throw. *)
Definition Transaction_sign (tx : Transaction) (signers : list Keypair)
  : Transaction :=
  {| feePayer := feePayer tx;
     recentBlockhash := recentBlockhash tx;
     tx_lastValidBlockHeight := tx_lastValidBlockHeight tx;
     instructions := instructions tx;
     signatures := map kp_publicKey signers |}.

(** [transaction.recentBlockhash = bh]. *)
Definition set_recentBlockhash (tx : Transaction) (bh : Blockhash)
  : Transaction :=
  {| feePayer := feePayer tx;
     recentBlockhash := Some bh;
     tx_lastValidBlockHeight := tx_lastValidBlockHeight tx;
     instructions := instructions tx;
     signatures := signatures tx |}.

(** [transaction.feePayer = pk]. *)
Definition set_feePayer (tx : Transaction) (pk : PublicKey) : Transaction :=
  {| feePayer := Some pk;
     recentBlockhash := recentBlockhash tx;
     tx_lastValidBlockHeight := tx_lastValidBlockHeight tx;
     instructions := instructions tx;
     signatures := signatures tx |}.

(** One parsed token account of [getParsedTokenAccountsByOwner]: the field
    [account.data.parsed.info.tokenAmount.uiAmount], a number or [null]. *)
Record TokenAccount : Type := mkTokenAccount {
  uiAmount : option Q
}.

(** What the flows import from web3.js, spl-token and Anchor and only use:
    the [PublicKey] constructor (which throws on a string that is not an
    address), the well-known addresses, the mint size and the argument
    encoder of the program's instruction coder. *)
Class Web3Lib : Type := {
  PublicKey_new : string -> result PublicKey;
  TOKEN_PROGRAM_ID : PublicKey;
  SystemProgram_programId : PublicKey;
  SYSVAR_RENT_PUBKEY : PublicKey;
  MINT_SIZE : N;
  coder_encode : string -> list JsValue -> result (list N);
  (** [export const PROGRAM_ID = new PublicKey("CGnw...")] of
      stablecoin-program.ts evaluates when the module loads. *)
  PROGRAM_ID : PublicKey;
  PROGRAM_ID_loads :
    PublicKey_new "CGnwq4D9qErCRjPujz5MVkMaixR8BLRACpAmLWsqoRRe" = Ok PROGRAM_ID
}.

(* ================================================================== *)
(** * The program interface (IDL) and Anchor's method builder *)

(** An instruction of the IDL: its name and the names of its accounts in
    wire order. *)
Record IdlInstruction : Type := mkIdlInstruction {
  idl_name : string;
  idl_accounts : list string
}.

(** Modelled from the spec: [src/utils/idl/stablecoin_factory] is imported by
    both source files and is not among the sources.  The spec gives the
    account list of the create-stablecoin instruction as "authority,
    stablecoinData, stablecoinMint, bondMint, token-program, system-program,
    rent-sysvar"; the names are the ones the callers bind. *)
Definition IDL_createStablecoin : IdlInstruction :=
  {| idl_name := "createStablecoin";
     idl_accounts :=
       ["authority"; "stablecoinData"; "stablecoinMint"; "bondMint";
        "tokenProgram"; "systemProgram"; "rent"] |}.

(** A JavaScript object literal with public keys as values: its properties
    in the order they are written. *)
Definition AccountsObject := list (string * PublicKey).

(** [obj[name]]. *)
Fixpoint get_account (obj : AccountsObject) (name : string)
  : option PublicKey :=
  match obj with
  | [] => None
  | (k, v) :: rest => if String.eqb k name then Some v else get_account rest name
  end.

(** [program.methods.<name>(...args)], then [.accounts({...})]. *)
Record MethodsBuilder : Type := mkMethodsBuilder {
  mb_ix : IdlInstruction;
  mb_args : list JsValue;
  mb_accounts : AccountsObject
}.

Definition methods_createStablecoin
    (name symbol : string) (decimals : Z) (iconUrl targetCurrency : string)
  : MethodsBuilder :=
  {| mb_ix := IDL_createStablecoin;
     mb_args := [VString name; VString symbol; VNumber decimals;
                 VString iconUrl; VString targetCurrency];
     mb_accounts := [] |}.

Definition accounts (b : MethodsBuilder) (obj : AccountsObject)
  : MethodsBuilder :=
  {| mb_ix := mb_ix b; mb_args := mb_args b; mb_accounts := obj |}.

(** The account keys of the instruction: every account of the IDL, in the
    IDL's order, looked up by name in the bound object.  A name that is not
    bound makes the builder throw. *)
Fixpoint resolve_accounts (names : list string) (obj : AccountsObject)
  : result (list PublicKey) :=
  match names with
  | [] => Ok []
  | n :: rest =>
      match get_account obj n with
      | None => Throw (ErrorObj ("Invalid arguments: " ++ n ++ " not provided."))
      | Some pk =>
          match resolve_accounts rest obj with
          | Ok pks => Ok (pk :: pks)
          | Throw e => Throw e
          end
      end
  end.

(** [.instruction()]: validate and order the accounts, encode the
    arguments. *)
Definition instruction `{Web3Lib} (programId : PublicKey) (b : MethodsBuilder)
  : result Instruction :=
  match resolve_accounts (idl_accounts (mb_ix b)) (mb_accounts b) with
  | Throw e => Throw e
  | Ok keys =>
      match coder_encode (idl_name (mb_ix b)) (mb_args b) with
      | Throw e => Throw e
      | Ok data =>
          Ok (ProgramInstruction programId (idl_name (mb_ix b)) (mb_args b)
                                 keys data)
      end
  end.

(* ================================================================== *)
(** * The outside world, the component state and the trace *)

(** The [useState] form of the component. *)
Record FormData : Type := mkFormData {
  name : string;
  symbol : string;
  currency : string;
  icon : string;
  bondMint : string
}.

(** The parameter object the first listing hands to
    [program.createStablecoin]. *)
Record CreateStablecoinCall : Type := mkCreateStablecoinCall {
  call_name : string;
  call_symbol : string;
  call_decimals : Z;
  call_iconUrl : string;
  call_targetCurrency : string;
  call_bondMint : PublicKey;
  call_stablecoinData : PublicKey;
  call_stablecoinMint : PublicKey;
  call_signers : list Keypair
}.

(** The RPC node behind [connection].  The first argument of every method is
    the clock value at the call. *)
Record Connection : Type := mkConnection {
  getLatestBlockhash : nat -> result BlockhashWithExpiryBlockHeight;
  getMinimumBalanceForRentExemption : nat -> N -> result N;
  sendRawTransaction : nat -> Transaction -> result TransactionSignature;
  confirmTransaction :
    nat -> TransactionSignature -> Blockhash -> N -> result SignatureResult;
  getParsedTokenAccountsByOwner :
    nat -> PublicKey -> PublicKey -> result (list TokenAccount)
}.

(** [useWallet()]: the connected key ([null] when disconnected) and the
    adapter's methods. *)
Record WalletContextState : Type := mkWallet {
  publicKey : option PublicKey;
  wallet_sendTransaction :
    nat -> Transaction -> list Keypair -> result TransactionSignature;
  signTransaction : nat -> Transaction -> result Transaction
}.

Record World : Type := mkWorld {
  (** [Keypair.generate()] *)
  Keypair_generate : nat -> Keypair;
  (** [useConnection().connection] *)
  connection : option Connection;
  (** [useWallet()] *)
  wallet : WalletContextState;
  (** [program.createStablecoin({..., signers})] as the first listing calls
      it: that listing passes [signers] and no [authority], which is not the
      signature of the class under src/utils; its callee is not among the
      sources and is an oracle here. *)
  program_createStablecoin : nat -> CreateStablecoinCall -> result unit
}.

(** What a flow does that can be observed, in program order. *)
Inductive Event : Type :=
| EKeypairGenerate (kp : Keypair)
| EGetLatestBlockhash (r : result BlockhashWithExpiryBlockHeight)
| EGetMinimumBalanceForRentExemption (space : N) (r : result N)
| ENewTransaction (fp : PublicKey) (bh : Blockhash) (lvh : N)
| ESetRecentBlockhash (bh : Blockhash)
| ESetFeePayer (fp : PublicKey)
| ETransactionAdd (items : list Instruction)
| ETransactionSign (signers : list Keypair)
| EWalletSendTransaction
    (tx : Transaction) (signers : list Keypair) (r : result TransactionSignature)
| ESignTransaction (tx : Transaction) (r : result Transaction)
| ESendRawTransaction (tx : Transaction) (r : result TransactionSignature)
| EConfirmTransaction
    (sig : TransactionSignature) (bh : Blockhash) (lvh : N)
    (r : result SignatureResult)
| EGetParsedTokenAccountsByOwner
    (owner mint : PublicKey) (r : result (list TokenAccount))
| EProgramCreateStablecoin (params : CreateStablecoinCall) (r : result unit)
| EToastError (msg : string)
| EToastSuccess (msg : string).

(** The component's React state, the clock and the trace so far. *)
Record State : Type := mkState {
  tick : nat;
  trace : list Event;
  loading : bool;
  bondBalance : option Q;
  formData : FormData
}.

Definition initialFormData : FormData :=
  {| name := ""; symbol := ""; currency := "USD"; icon := ""; bondMint := "" |}.

Definition initialState : State :=
  {| tick := 0%nat; trace := []; loading := false; bondBalance := None;
     formData := initialFormData |}.

(** ** The monad of the flows: state passing, with exceptions *)

Definition M (A : Type) : Type := State -> result A * State.

Definition ret {A} (a : A) : M A := fun s => (Ok a, s).

Definition throw {A} (e : exn) : M A := fun s => (Throw e, s).

Definition bind {A B} (m : M A) (k : A -> M B) : M B :=
  fun s =>
    match m s with
    | (Ok a, s') => k a s'
    | (Throw e, s') => (Throw e, s')
    end.

Declare Scope flow_scope.
Delimit Scope flow_scope with flow.
Notation "x <- m ;; k" := (bind m (fun x => k))
  (at level 100, m at next level, right associativity) : flow_scope.
Notation "m ;; k" := (bind m (fun _ => k))
  (at level 100, right associativity) : flow_scope.
Local Open Scope flow_scope.

(** [try { body } catch (e) { handler e }] *)
Definition try_catch {A} (body : M A) (handler : exn -> M A) : M A :=
  fun s =>
    match body s with
    | (Ok a, s') => (Ok a, s')
    | (Throw e, s') => handler e s'
    end.

(** [try { body } finally { fin }] *)
Definition try_finally {A} (body : M A) (fin : M unit) : M A :=
  fun s =>
    let (r, s') := body s in
    match fin s' with
    | (Ok _, s'') => (r, s'')
    | (Throw e, s'') => (Throw e, s'')
    end.

(** A value that may throw, lifted into the flow. *)
Definition lift {A} (r : result A) : M A := fun s => (r, s).

Definition emit (e : Event) : M unit :=
  fun s =>
    (Ok tt,
     {| tick := tick s; trace := trace s ++ [e]; loading := loading s;
        bondBalance := bondBalance s; formData := formData s |}).

(** [await] of an external call: the oracle answers at the current clock
    value, the clock advances and the call is logged with its answer. *)
Definition await {A} (oracle : nat -> result A) (log : result A -> Event)
  : M A :=
  fun s =>
    let r := oracle (tick s) in
    (r,
     {| tick := S (tick s); trace := trace s ++ [log r]; loading := loading s;
        bondBalance := bondBalance s; formData := formData s |}).

(** [Keypair.generate()] never fails; it consumes randomness. *)
Definition generate (w : World) : M Keypair :=
  fun s =>
    let kp := Keypair_generate w (tick s) in
    (Ok kp,
     {| tick := S (tick s); trace := trace s ++ [EKeypairGenerate kp];
        loading := loading s; bondBalance := bondBalance s;
        formData := formData s |}).

Definition setLoading (b : bool) : M unit :=
  fun s =>
    (Ok tt,
     {| tick := tick s; trace := trace s; loading := b;
        bondBalance := bondBalance s; formData := formData s |}).

Definition setBondBalance (b : option Q) : M unit :=
  fun s =>
    (Ok tt,
     {| tick := tick s; trace := trace s; loading := loading s;
        bondBalance := b; formData := formData s |}).

Definition setFormData (f : FormData) : M unit :=
  fun s =>
    (Ok tt,
     {| tick := tick s; trace := trace s; loading := loading s;
        bondBalance := bondBalance s; formData := f |}).

Definition toast_error (msg : string) : M unit := emit (EToastError msg).
Definition toast_success (msg : string) : M unit := emit (EToastSuccess msg).

Definition get_formData : M FormData := fun s => (Ok (formData s), s).

(* ================================================================== *)
(** * src/utils/stablecoin-program.ts *)

Module StablecoinProgram.

Record AnchorWallet : Type := mkAnchorWallet {
  aw_publicKey : PublicKey;
  aw_signTransaction : nat -> Transaction -> result Transaction
}.

(** The fields of an instance. *)
Record t : Type := mkProgram {
  this_connection : Connection;
  this_anchorWallet : AnchorWallet
}.

(** [constructor(connection, wallet)] *)
Definition new (connection : Connection) (wallet : WalletContextState)
  : result t :=
  match publicKey wallet with
  | None => Throw (ErrorObj "Wallet not connected")
  | Some pk =>
      Ok {| this_connection := connection;
            this_anchorWallet :=
              {| aw_publicKey := pk;
                 aw_signTransaction := signTransaction wallet |} |}
  end.

Record Params : Type := mkParams {
  name : string;
  symbol : string;
  decimals : Z;
  iconUrl : string;
  targetCurrency : string;
  authority : PublicKey;
  stablecoinData : PublicKey;
  stablecoinMint : PublicKey;
  bondMint : PublicKey
}.

(** The object literal handed to [.accounts(...)]. *)
Definition createStablecoin_accounts `{Web3Lib} (params : Params)
  : AccountsObject :=
  [("authority", authority params);
   ("stablecoinData", stablecoinData params);
   ("stablecoinMint", stablecoinMint params);
   ("bondMint", bondMint params);
   ("tokenProgram", TOKEN_PROGRAM_ID);
   ("systemProgram", SystemProgram_programId);
   ("rent", SYSVAR_RENT_PUBKEY)].


(** [sendTransaction(transaction)].  [signed.serialize()] is taken to
    succeed: in the library it throws, before anything is broadcast, when a
    required signature is missing or invalid. *)
Definition sendTransaction (this : t) (transaction : Transaction)
  : M TransactionSignature :=
  try_catch
    (latestBlockhash <-
       await (getLatestBlockhash (this_connection this)) EGetLatestBlockhash ;;
     emit (ESetRecentBlockhash (blockhash latestBlockhash)) ;;
     let transaction :=
       set_recentBlockhash transaction (blockhash latestBlockhash) in
     emit (ESetFeePayer (aw_publicKey (this_anchorWallet this))) ;;
     let transaction :=
       set_feePayer transaction (aw_publicKey (this_anchorWallet this)) in
     signed <-
       await (fun t => aw_signTransaction (this_anchorWallet this) t transaction)
             (ESignTransaction transaction) ;;
     signature <-
       await (fun t => sendRawTransaction (this_connection this) t signed)
             (ESendRawTransaction signed) ;;
     _ <-
       await (fun t =>
                confirmTransaction (this_connection this) t signature
                  (blockhash latestBlockhash)
                  (lastValidBlockHeight latestBlockhash))
             (EConfirmTransaction signature (blockhash latestBlockhash)
                (lastValidBlockHeight latestBlockhash)) ;;
     ret signature)
    (fun err => throw err).

End StablecoinProgram.

(* ================================================================== *)
(** * src/components/CreateStablecoin.tsx, first listing *)

Module ViaProgram.

(** [error instanceof Error ? error.message : '...'] *)
Definition errorMessage (error : exn) : string :=
  match error with
  | ErrorObj m => m
  | NonError => "An unexpected error occurred"
  end.

(** [handleSubmit].  The guard also tests [sendTransaction], which the
    wallet context always provides.  The wallet object handed to the
    [StablecoinProgram] constructor carries the same [publicKey]. *)
Definition handleSubmit `{Web3Lib} (w : World) : M unit :=
  form <- get_formData ;;
  match publicKey (wallet w), connection w with
  | Some publicKey, Some connection =>
      try_finally
        (try_catch
           (setLoading true ;;
            stablecoinData <- generate w ;;
            stablecoinMint <- generate w ;;
            parsed <-
              try_catch
                (bondMintPubkey <- lift (PublicKey_new (bondMint form)) ;;
                 ret (Some bondMintPubkey))
                (fun _ =>
                   toast_error
                     "Invalid bond mint address. Please select a valid bond." ;;
                   ret None) ;;
            match parsed with
            | None => ret tt
            | Some bondMintPubkey =>
                _ <- lift (StablecoinProgram.new connection
                             {| publicKey := Some publicKey;
                                wallet_sendTransaction :=
                                  wallet_sendTransaction (wallet w);
                                signTransaction :=
                                  signTransaction (wallet w) |}) ;;
                _ <-
                  (let params :=
                     {| call_name := name form;
                        call_symbol := symbol form;
                        call_decimals := 9;
                        call_iconUrl := icon form;
                        call_targetCurrency := currency form;
                        call_bondMint := bondMintPubkey;
                        call_stablecoinData := kp_publicKey stablecoinData;
                        call_stablecoinMint := kp_publicKey stablecoinMint;
                        call_signers := [stablecoinData; stablecoinMint] |} in
                   await (fun t => program_createStablecoin w t params)
                         (EProgramCreateStablecoin params)) ;;
                toast_success "Stablecoin created successfully!" ;;
                setFormData initialFormData
            end)
           (fun error =>
              toast_error
                ("Failed to create stablecoin: " ++ errorMessage error)))
        (setLoading false)
  | _, _ => toast_error "Please connect your wallet first"
  end.

(** [handleBondSelect(e)] with [e.target.value = value] *)
Definition handleBondSelect (value : string) : M unit :=
  prev <- get_formData ;;
  setFormData
    {| name := name prev; symbol := symbol prev; currency := currency prev;
       icon := icon prev; bondMint := value |}.

End ViaProgram.

(* ================================================================== *)
(** * src/components/CreateStablecoin.tsx, second listing *)

Module Inline.

(** [useMemo]: the Anchor program, [null] until both the connection and the
    wallet key are there. *)
Definition program `{Web3Lib} (w : World) : option PublicKey :=
  match connection w, publicKey (wallet w) with
  | Some _, Some _ => Some PROGRAM_ID
  | _, _ => None
  end.

(** [checkBondBalance(bondMintStr)] *)
Definition checkBondBalance `{Web3Lib} (w : World) (bondMintStr : string)
  : M unit :=
  match publicKey (wallet w), connection w with
  | Some publicKey, Some connection =>
      try_catch
        (bondMintPubkey <- lift (PublicKey_new bondMintStr) ;;
         tokenAccounts <-
           await (fun t =>
                    getParsedTokenAccountsByOwner connection t publicKey
                      bondMintPubkey)
                 (EGetParsedTokenAccountsByOwner publicKey bondMintPubkey) ;;
         match tokenAccounts with
         | first :: _ => setBondBalance (uiAmount first)
         | [] => setBondBalance (Some 0%Q)
         end)
        (fun _ => setBondBalance (Some 0%Q))
  | _, _ => ret tt
  end.

(** The object literal handed to [.accounts(...)]; evaluating it
    constructs the bond mint key, which may throw. *)
Definition createStablecoin_accounts `{Web3Lib}
    (publicKey : PublicKey) (stablecoinData stablecoinMint : Keypair)
    (form : FormData) : result AccountsObject :=
  match PublicKey_new (bondMint form) with
  | Throw e => Throw e
  | Ok bondMintPubkey =>
      Ok [("authority", publicKey);
          ("stablecoinData", kp_publicKey stablecoinData);
          ("stablecoinMint", kp_publicKey stablecoinMint);
          ("bondMint", bondMintPubkey);
          ("tokenProgram", TOKEN_PROGRAM_ID);
          ("systemProgram", SystemProgram_programId);
          ("rent", SYSVAR_RENT_PUBKEY)]
  end.

(** [error.message || 'Failed to create stablecoin'], for a thrown [Error]
    and for a thrown value without message.  The source reads the property on
    whatever was thrown: on [null] or [undefined] the read itself throws, and
    an object that is no [Error] may carry a message of its own; the
    properties that depend on this catch are stated for thrown [Error]s. *)
Definition errorMessage (error : exn) : string :=
  match error with
  | ErrorObj m => or_string m "Failed to create stablecoin"
  | NonError => "Failed to create stablecoin"
  end.

(** The end of the [try] block: what the flow makes of the confirmation. *)
Definition check_confirmation (confirmation : SignatureResult) : M unit :=
  match err confirmation with
  | Some e =>
      if truthy_err e
      then throw (ErrorObj ("Transaction failed: "
                              ++ TransactionError_toString e))
      else toast_success "Stablecoin created successfully!"
  | None => toast_success "Stablecoin created successfully!"
  end.

(** [handleSubmit].  The guard also tests [wallet], the context object,
    which is always there.  The arguments of [transaction.add] are evaluated
    from left to right, so the bond mint key is constructed after the rent
    was fetched and before anything is appended. *)
Definition handleSubmit `{Web3Lib} (w : World) : M unit :=
  form <- get_formData ;;
  match publicKey (wallet w), connection w, program w with
  | Some publicKey, Some connection, Some programId =>
      try_finally
        (try_catch
           (setLoading true ;;
            stablecoinMint <- generate w ;;
            stablecoinData <- generate w ;;
            latestBlockhash <-
              await (getLatestBlockhash connection) EGetLatestBlockhash ;;
            emit (ENewTransaction publicKey (blockhash latestBlockhash)
                    (lastValidBlockHeight latestBlockhash)) ;;
            let transaction :=
              Transaction_new publicKey (blockhash latestBlockhash)
                (lastValidBlockHeight latestBlockhash) in
            mintRent <-
              await (fun t =>
                       getMinimumBalanceForRentExemption connection t MINT_SIZE)
                    (EGetMinimumBalanceForRentExemption MINT_SIZE) ;;
            let ix1 :=
              SystemProgram_createAccount publicKey
                (kp_publicKey stablecoinMint) MINT_SIZE mintRent
                TOKEN_PROGRAM_ID in
            let ix2 :=
              createInitializeMintInstruction (kp_publicKey stablecoinMint)
                6 publicKey publicKey in
            accs <-
              lift (createStablecoin_accounts publicKey stablecoinData
                      stablecoinMint form) ;;
            ix3 <-
              lift (instruction programId
                      (accounts
                         (methods_createStablecoin (name form) (symbol form)
                            6 (or_string (icon form) "") (currency form))
                         accs)) ;;
            emit (ETransactionAdd [ix1; ix2; ix3]) ;;
            let transaction := Transaction_add transaction [ix1; ix2; ix3] in
            emit (ETransactionSign [stablecoinMint; stablecoinData]) ;;
            let transaction :=
              Transaction_sign transaction [stablecoinMint; stablecoinData] in
            signature <-
              await (fun t =>
                       wallet_sendTransaction (wallet w) t transaction
                         [stablecoinMint; stablecoinData])
                    (EWalletSendTransaction transaction
                       [stablecoinMint; stablecoinData]) ;;
            confirmation <-
              await (fun t =>
                       confirmTransaction connection t signature
                         (blockhash latestBlockhash)
                         (lastValidBlockHeight latestBlockhash))
                    (EConfirmTransaction signature
                       (blockhash latestBlockhash)
                       (lastValidBlockHeight latestBlockhash)) ;;
            check_confirmation confirmation)
           (fun error => toast_error (errorMessage error)))
        (setLoading false)
  | _, _, _ => toast_error "Please connect your wallet first"
  end.

(** [handleBondSelect(e)] with [e.target.value = value] *)
Definition handleBondSelect `{Web3Lib} (w : World) (value : string)
  : M unit :=
  prev <- get_formData ;;
  setFormData
    {| name := name prev; symbol := symbol prev; currency := currency prev;
       icon := icon prev; bondMint := value |} ;;
  if truthy_string value then checkBondBalance w value else ret tt.

End Inline.

(* ================================================================== *)
(** * The bond catalog: [fetchBonds], the same in both listings *)

Module BondCatalog.

(** A catalog entry as the SDK hands it over (typed [any]): [bond.mint] may
    be missing, and so may each of its fields. *)
Record RawMint : Type := mkRawMint {
  address : option string;
  raw_name : option string;
  raw_symbol : option string
}.

Record RawBond : Type := mkRawBond {
  raw_mint : option RawMint
}.

Record Bond : Type := mkBond {
  mint : string;
  name : string;
  symbol : string
}.

(** [v || d] where [v] may be undefined. *)
Definition or_default (v : option string) (d : string) : string :=
  match v with
  | Some x => or_string x d
  | None => d
  end.

(** [bond.mint?.field] *)
Definition optional_field (bond : RawBond) (field : RawMint -> option string)
  : option string :=
  match raw_mint bond with
  | Some m => field m
  | None => None
  end.

(** The callback of [bonds.map(...)]: [None] is [null]. *)
Definition formatBond `{Web3Lib} (bond : RawBond) : option Bond :=
  match optional_field bond address with
  | None => None
  | Some mintString =>
      if truthy_string mintString then
        match PublicKey_new mintString with
        | Ok _ =>
            Some {| mint := mintString;
                    name := or_default (optional_field bond raw_name)
                                       "Unnamed Bond";
                    symbol := or_default (optional_field bond raw_symbol)
                                         "USTRY" |}
        | Throw _ => None
        end
      else None
  end.

(** [.filter(Boolean)] on a list of objects and [null]s. *)
Fixpoint filter_Boolean {A} (l : list (option A)) : list A :=
  match l with
  | [] => []
  | Some a :: rest => a :: filter_Boolean rest
  | None :: rest => filter_Boolean rest
  end.

(** The component state together with the [availableBonds] state. *)
Record Component : Type := mkComponent {
  state : State;
  availableBonds : list Bond
}.

(** The clock after an external call that is not logged. *)
Definition advance (s : State) : State :=
  {| tick := S (tick s); trace := trace s; loading := loading s;
     bondBalance := bondBalance s; formData := formData s |}.

(** [fetchBonds()], run by the mount effect.  [getBonds] is
    [StablebondProgram.getBonds(connection.rpcEndpoint)] of the bond SDK. *)
Definition fetchBonds `{Web3Lib} (w : World)
    (getBonds : nat -> result (list RawBond)) (c : Component) : Component :=
  match connection w with
  | None => c
  | Some _ =>
      match getBonds (tick (state c)) with
      | Ok bonds =>
          {| state := advance (state c);
             availableBonds := filter_Boolean (map formatBond bonds) |}
      | Throw _ =>
          {| state :=
               snd (toast_error "Failed to fetch available bonds"
                                (advance (state c)));
             availableBonds := availableBonds c |}
      end
  end.

(** A list entry the form can offer: its mint is a non-empty string the
    [PublicKey] constructor accepts, and it has a name and a symbol to
    show. *)
Definition valid_bond `{Web3Lib} (b : Bond) : Prop :=
  (exists pk, PublicKey_new (mint b) = Ok pk) /\
  mint b <> "" /\ name b <> "" /\ symbol b <> "".

(** Whether the constructor accepts a catalog address. *)
Definition accepted `{Web3Lib} (a : string) : bool :=
  truthy_string a &&
  match PublicKey_new a with Ok _ => true | Throw _ => false end.

(** The addresses of the catalog entries that carry one. *)
Definition addresses (bonds : list RawBond) : list string :=
  flat_map (fun bond =>
              match optional_field bond address with
              | Some a => [a]
              | None => []
              end) bonds.

End BondCatalog.

(* ================================================================== *)
(** * The connection status indicator (the unnamed component source) *)

Module ConnectionStatus.

Inductive RpcStatus : Type := ok | error.

(** [checkConnection()]: the state it sets. *)
Definition checkConnection (connection : Connection) (t : nat) : RpcStatus :=
  match getLatestBlockhash connection t with
  | Ok _ => ok
  | Throw _ => error
  end.

(** [n] checks one after the other, the first at clock value [t], from the
    status [st]. *)
Fixpoint checks (connection : Connection) (t n : nat) (st : RpcStatus)
  : RpcStatus :=
  match n with
  | O => st
  | S n' => checks connection (S t) n' (checkConnection connection t)
  end.

(** The text next to the dot. *)
Definition label (rpcStatus : RpcStatus) : string :=
  match rpcStatus with
  | ok => "Connected"
  | error => "RPC Error"
  end.

End ConnectionStatus.

(* ================================================================== *)
(** * Observing a run *)

(** The state at the start of a call, with an empty log: the trace of the
    run is then the events of this call only. *)
Definition begin (s : State) : State :=
  {| tick := tick s; trace := []; loading := loading s;
     bondBalance := bondBalance s; formData := formData s |}.

Definition outcome {A} (m : M A) (s : State) : result A := fst (m (begin s)).
Definition final {A} (m : M A) (s : State) : State := snd (m (begin s)).
Definition events {A} (m : M A) (s : State) : list Event := trace (final m s).

(** The calls that reach the network: blockhash fetch, rent query,
    broadcast, confirmation polling, balance query, and the delegated
    creation call of the first listing. *)
Definition is_network_call (e : Event) : bool :=
  match e with
  | EGetLatestBlockhash _ => true
  | EGetMinimumBalanceForRentExemption _ _ => true
  | EWalletSendTransaction _ _ _ => true
  | ESendRawTransaction _ _ => true
  | EConfirmTransaction _ _ _ _ => true
  | EGetParsedTokenAccountsByOwner _ _ _ => true
  | EProgramCreateStablecoin _ _ => true
  | _ => false
  end.

Definition network_calls (tr : list Event) : list Event :=
  filter is_network_call tr.







(** The kind of an instruction. *)
Inductive InstructionKind : Type :=
| CreateAccount
| InitializeMint
| CreateStablecoin
| OtherProgramCall.

Definition kind (ix : Instruction) : InstructionKind :=
  match ix with
  | SystemProgram_createAccount _ _ _ _ _ => CreateAccount
  | createInitializeMintInstruction _ _ _ _ => InitializeMint
  | ProgramInstruction _ m _ _ _ =>
      if String.eqb m "createStablecoin" then CreateStablecoin
      else OtherProgramCall
  end.

(** The decimals argument of the initialize-mint instructions among
    [ixs]. *)
Definition initializeMint_decimals (ixs : list Instruction) : list Z :=
  flat_map (fun ix =>
              match ix with
              | createInitializeMintInstruction _ d _ _ => [d]
              | _ => []
              end) ixs.

(** The decimals argument (the third one) of the create-stablecoin program
    instructions among [ixs]. *)
Definition createStablecoin_decimals (ixs : list Instruction) : list Z :=
  flat_map (fun ix =>
              match ix with
              | ProgramInstruction _ _ (_ :: _ :: VNumber d :: _) _ _ => [d]
              | _ => []
              end) ixs.

(** The instructions a run appends to its envelope. *)
Definition added_instructions (tr : list Event) : list Instruction :=
  flat_map (fun e => match e with ETransactionAdd items => items | _ => [] end)
           tr.

(** Every decimals value a run hands over: to initialize-mint, to the
    create-stablecoin instruction, and to the delegated creation call. *)
Definition decimals_used (tr : list Event) : list Z :=
  flat_map (fun e =>
              match e with
              | ETransactionAdd items =>
                  (initializeMint_decimals items
                   ++ createStablecoin_decimals items)%list
              | EProgramCreateStablecoin params _ => [call_decimals params]
              | _ => []
              end) tr.

(** The answers of the blockhash fetches of a run. *)
Definition blockhash_fetches (tr : list Event)
  : list (result BlockhashWithExpiryBlockHeight) :=
  flat_map (fun e => match e with EGetLatestBlockhash r => [r] | _ => [] end)
           tr.

(** The sum of the amounts of a list of token accounts ([null] counts as
    zero): what a balance summed over all accounts would be. *)
Definition total_uiAmount (accs : list TokenAccount) : Q :=
  fold_right (fun a acc =>
                match uiAmount a with
                | Some q => Qplus q acc
                | None => acc
                end) 0%Q accs.

Definition is_toast (e : Event) : bool :=
  match e with
  | EToastError _ => true
  | EToastSuccess _ => true
  | _ => false
  end.

(** The toasts of a run, in order. *)
Definition toasts (tr : list Event) : list Event := filter is_toast tr.

(** The external parties a flow calls. *)
Inductive ExternalCall : Type :=
| FetchBlockhash
| QueryRent
| WalletSign
| Broadcast
| Confirm
| QueryBalance
| DelegatedCreate.

(** The calls of a run to the node and the wallet, in order. *)
Definition external_calls (tr : list Event) : list ExternalCall :=
  flat_map (fun e =>
              match e with
              | EGetLatestBlockhash _ => [FetchBlockhash]
              | EGetMinimumBalanceForRentExemption _ _ => [QueryRent]
              | ESignTransaction _ _ => [WalletSign]
              | EWalletSendTransaction _ _ _ => [Broadcast]
              | ESendRawTransaction _ _ => [Broadcast]
              | EConfirmTransaction _ _ _ _ => [Confirm]
              | EGetParsedTokenAccountsByOwner _ _ _ => [QueryBalance]
              | EProgramCreateStablecoin _ _ => [DelegatedCreate]
              | _ => []
              end) tr.

(** The errors the node and the wallet answered in a run. *)
Definition failures (tr : list Event) : list exn :=
  flat_map (fun e =>
              match e with
              | EGetLatestBlockhash (Throw x) => [x]
              | EGetMinimumBalanceForRentExemption _ (Throw x) => [x]
              | ESignTransaction _ (Throw x) => [x]
              | EWalletSendTransaction _ _ (Throw x) => [x]
              | ESendRawTransaction _ (Throw x) => [x]
              | EConfirmTransaction _ _ _ (Throw x) => [x]
              | EGetParsedTokenAccountsByOwner _ _ (Throw x) => [x]
              | EProgramCreateStablecoin _ (Throw x) => [x]
              | _ => []
              end) tr.

(** Whether a run saw a confirmation whose [err] is falsy. *)
Definition confirmed_without_error (tr : list Event) : bool :=
  existsb (fun e =>
             match e with
             | EConfirmTransaction _ _ _ (Ok res) =>
                 match err res with
                 | None => true
                 | Some x => negb (truthy_err x)
                 end
             | _ => false
             end) tr.

(** Whether the delegated creation call of a run returned. *)
Definition delegated_ok (tr : list Event) : bool :=
  existsb (fun e =>
             match e with
             | EProgramCreateStablecoin _ (Ok _) => true
             | _ => false
             end) tr.

(** Every error the node and the wallet answered in a run is an [Error]
    instance. *)
Definition only_Errors_thrown (tr : list Event) : Prop :=
  forall e, In e (failures tr) -> exists m, e = ErrorObj m.

(** The state with another balance on display. *)
Definition with_bondBalance (s : State) (b : option Q) : State :=
  {| tick := tick s; trace := trace s; loading := loading s;
     bondBalance := b; formData := formData s |}.

(** The form with another bond selected. *)
Definition with_bondMint (f : FormData) (value : string) : FormData :=
  {| name := name f; symbol := symbol f; currency := currency f;
     icon := icon f; bondMint := value |}.

(* ================================================================== *)
(** * A concrete library and concrete worlds, to run the flows on *)

Module Sample.

(** Base58 with the Bitcoin alphabet, as [new PublicKey(string)] reads an
    address: every leading '1' is a zero byte, the rest is a big-endian
    number in base 58; the result must be 32 bytes long. *)
Definition alphabet : string :=
  "123456789ABCDEFGHJKLMNPQRSTUVWXYZabcdefghijkmnopqrstuvwxyz".

Fixpoint index_of (c : ascii) (s : string) (i : N) : option N :=
  match s with
  | EmptyString => None
  | String d rest =>
      if Ascii.eqb c d then Some i else index_of c rest (i + 1)%N
  end.

Fixpoint digits (s : string) : option (list N) :=
  match s with
  | EmptyString => Some []
  | String c rest =>
      match index_of c alphabet 0%N, digits rest with
      | Some d, Some ds => Some (d :: ds)
      | _, _ => None
      end
  end.

Fixpoint leading_zeros (ds : list N) : nat :=
  match ds with
  | 0%N :: rest => S (leading_zeros rest)
  | _ => 0%nat
  end.

Definition value (ds : list N) : N :=
  fold_left (fun acc d => (acc * 58 + d)%N) ds 0%N.

Fixpoint bytes_le (fuel : nat) (n : N) : list N :=
  match fuel with
  | O => []
  | S fuel' =>
      if N.eqb n 0 then [] else (n mod 256)%N :: bytes_le fuel' (n / 256)%N
  end.

Definition decode (s : string) : option (list N) :=
  match digits s with
  | None => None
  | Some ds =>
      Some (repeat 0%N (leading_zeros ds)
              ++ rev (bytes_le (List.length ds) (value ds)))%list
  end.

Definition PublicKey_of_string (s : string) : result PublicKey :=
  match decode s with
  | None => Throw (ErrorObj "Non-base58 character")
  | Some bs =>
      if Nat.eqb (List.length bs) 32
      then Ok (mkPublicKey bs)
      else Throw (ErrorObj "Invalid public key input")
  end.

Definition key_of (s : string) : PublicKey :=
  match PublicKey_of_string s with
  | Ok pk => pk
  | Throw _ => mkPublicKey []
  end.

(** Borsh: a string is its length on four bytes, little-endian, then its
    bytes; a [u8] is one byte and must fit. *)
Fixpoint string_bytes (s : string) : list N :=
  match s with
  | EmptyString => []
  | String c rest => N_of_ascii c :: string_bytes rest
  end.

Definition u32_le (n : N) : list N :=
  [(n mod 256); (n / 256 mod 256); (n / 65536 mod 256);
   (n / 16777216 mod 256)]%N.

Fixpoint encode_args (args : list JsValue) : result (list N) :=
  match args with
  | [] => Ok []
  | VString s :: rest =>
      match encode_args rest with
      | Ok bs =>
          Ok (u32_le (N.of_nat (String.length s)) ++ string_bytes s ++ bs)%list
      | Throw e => Throw e
      end
  | VNumber z :: rest =>
      if (0 <=? z) && (z <? 256) then
        match encode_args rest with
        | Ok bs => Ok (Z.to_N z :: bs)
        | Throw e => Throw e
        end
      else Throw (ErrorObj "The value is out of range")
  end.

Definition program_id : PublicKey :=
  Eval vm_compute in key_of "CGnwq4D9qErCRjPujz5MVkMaixR8BLRACpAmLWsqoRRe".

#[local] Instance lib : Web3Lib :=
  {| PublicKey_new := PublicKey_of_string;
     TOKEN_PROGRAM_ID := key_of "TokenkegQfeZyiNwAJbNbGKPFXCWuBvf9Ss623VQ5DA";
     SystemProgram_programId := key_of "11111111111111111111111111111111";
     SYSVAR_RENT_PUBKEY := key_of "SysvarRent111111111111111111111111111111111";
     MINT_SIZE := 82%N;
     coder_encode := fun _ args => encode_args args;
     PROGRAM_ID := program_id;
     PROGRAM_ID_loads := eq_refl |}.

Definition alice : PublicKey :=
  key_of "4Nd1mBQtrMJVYVfKf2PJy9NZUZdTAsp7D4xWLs4gDB4T".

(** A bond mint address (the USDC mint, which is a valid address). *)
Definition bond_address : string :=
  "EPjFWdd5AufqSSqeM2qN1xzybapC8G4wEGGkZwyTDt1v".

Definition kp (n : nat) : Keypair :=
  {| kp_publicKey := mkPublicKey (repeat (N.of_nat n) 32);
     kp_secretKey := repeat (N.of_nat n) 64 |}.

(** A node whose blockhash changes with every fetch and which confirms
    with the given result; the owner holds the given token accounts. *)
Definition node (confirmed : result SignatureResult)
    (held : result (list TokenAccount)) : Connection :=
  {| getLatestBlockhash := fun t =>
       Ok {| blockhash := String (ascii_of_nat (65 + t)) "hash";
             lastValidBlockHeight := (1000 + N.of_nat t)%N |};
     getMinimumBalanceForRentExemption := fun _ _ => Ok 1461600%N;
     sendRawTransaction := fun _ _ => Ok "sig";
     confirmTransaction := fun _ _ _ _ => confirmed;
     getParsedTokenAccountsByOwner := fun _ _ _ => held |}.

Definition world (confirmed : result SignatureResult)
    (held : result (list TokenAccount)) : World :=
  {| Keypair_generate := kp;
     connection := Some (node confirmed held);
     wallet :=
       {| publicKey := Some alice;
          wallet_sendTransaction := fun _ _ _ => Ok "sig";
          signTransaction := fun _ tx => Ok tx |};
     program_createStablecoin := fun _ _ => Ok tt |}.

Definition confirmed_ok : result SignatureResult := Ok {| err := None |}.

Definition params : StablecoinProgram.Params :=
  {| StablecoinProgram.name := "Peso Stable";
     StablecoinProgram.symbol := "MXNS";
     StablecoinProgram.decimals := 6;
     StablecoinProgram.iconUrl := "";
     StablecoinProgram.targetCurrency := "MXN";
     StablecoinProgram.authority := alice;
     StablecoinProgram.stablecoinData := kp_publicKey (kp 1);
     StablecoinProgram.stablecoinMint := kp_publicKey (kp 0);
     StablecoinProgram.bondMint := key_of bond_address |}.

(** Two token accounts for the same owner and mint: 1.5 and 2.5 tokens. *)
Definition two_accounts : list TokenAccount :=
  [{| uiAmount := Some (3 # 2)%Q |}; {| uiAmount := Some (5 # 2)%Q |}].

Definition happy : World := world confirmed_ok (Ok []).

Definition form (bond : string) : FormData :=
  {| name := "Peso Stable"; symbol := "MXNS"; currency := "MXN";
     icon := ""; bondMint := bond |}.

Definition submitted (bond : string) : State :=
  {| tick := 0%nat; trace := []; loading := false; bondBalance := None;
     formData := form bond |}.

(** Two program errors as the node reports them. *)
Definition custom_error (code : Z) : TransactionError :=
  TxErrObject
    [("InstructionError", JArray [JNumber 2; JObject [("Custom", JNumber code)]])].

(** A catalog with one good entry, one without mint, one with an empty
    address, one with a malformed address, and one without name. *)
Definition catalog : list BondCatalog.RawBond :=
  [BondCatalog.mkRawBond
     (Some (BondCatalog.mkRawMint (Some bond_address) (Some "CETES")
                                  (Some "CETES")));
   BondCatalog.mkRawBond None;
   BondCatalog.mkRawBond (Some (BondCatalog.mkRawMint (Some "") None None));
   BondCatalog.mkRawBond
     (Some (BondCatalog.mkRawMint (Some "not-an-address") (Some "Bad") None));
   BondCatalog.mkRawBond
     (Some (BondCatalog.mkRawMint
              (Some "TokenkegQfeZyiNwAJbNbGKPFXCWuBvf9Ss623VQ5DA") (Some "")
              None))].

Definition mounted : BondCatalog.Component :=
  {| BondCatalog.state := submitted "";
     BondCatalog.availableBonds := [] |}.

(** A node that is down for the first three blockhash fetches. *)
Definition flaky : Connection :=
  {| getLatestBlockhash := fun t =>
       if Nat.ltb t 3 then Throw (ErrorObj "fetch failed")
       else Ok {| blockhash := "hash"; lastValidBlockHeight := 1000%N |};
     getMinimumBalanceForRentExemption := fun _ _ => Ok 1461600%N;
     sendRawTransaction := fun _ _ => Ok "sig";
     confirmTransaction := fun _ _ _ _ => confirmed_ok;
     getParsedTokenAccountsByOwner := fun _ _ _ => Ok [] |}.

(** The catalog service is up, or down. *)
Definition catalog_up : nat -> result (list BondCatalog.RawBond) :=
  fun _ => Ok catalog.

Definition catalog_down : nat -> result (list BondCatalog.RawBond) :=
  fun _ => Throw (ErrorObj "503").

(** A world whose wallet refuses to sign and send. *)
Definition refusing : World :=
  {| Keypair_generate := kp;
     connection := Some (node confirmed_ok (Ok []));
     wallet :=
       {| publicKey := Some alice;
          wallet_sendTransaction :=
            fun _ _ _ => Throw (ErrorObj "User rejected the request.");
          signTransaction := fun _ tx => Ok tx |};
     program_createStablecoin := fun _ _ => Ok tt |}.

(** A program instance on a node that confirms with the given result. *)
Definition program_on (confirmed : result SignatureResult)
  : StablecoinProgram.t :=
  {| StablecoinProgram.this_connection := node confirmed (Ok []);
     StablecoinProgram.this_anchorWallet :=
       {| StablecoinProgram.aw_publicKey := alice;
          StablecoinProgram.aw_signTransaction := fun _ tx => Ok tx |} |}.

(** The same with a wallet that adds its signature. *)
Definition signing_program_on (confirmed : result SignatureResult)
  : StablecoinProgram.t :=
  {| StablecoinProgram.this_connection := node confirmed (Ok []);
     StablecoinProgram.this_anchorWallet :=
       {| StablecoinProgram.aw_publicKey := alice;
          StablecoinProgram.aw_signTransaction :=
            fun _ tx =>
              Ok {| feePayer := feePayer tx;
                    recentBlockhash := recentBlockhash tx;
                    tx_lastValidBlockHeight := tx_lastValidBlockHeight tx;
                    instructions := instructions tx;
                    signatures := signatures tx ++ [alice] |} |} |}.

Definition empty_transaction : Transaction :=
  {| feePayer := None; recentBlockhash := None;
     tx_lastValidBlockHeight := None; instructions := []; signatures := [] |}.

End Sample.

(* ================================================================== *)
(** * Properties *)

Ltac unfold_monad :=
  unfold bind, try_catch, try_finally, await, emit, generate, lift, ret,
    throw, setLoading, setBondBalance, setFormData, toast_error,
    toast_success, get_formData in *.

Section BalancePrecondition.

Context {L : Web3Lib}.
Variables (w : World) (s : State) (bondMintStr : string).
Variables (owner mint : PublicKey) (conn : Connection).
Hypothesis wallet_connected : publicKey (wallet w) = Some owner.
Hypothesis node_connected : connection w = Some conn.
Hypothesis mint_parses : PublicKey_new bondMintStr = Ok mint.

(** The run of [checkBondBalance]: one query, no exception, and a balance
    that depends on the answer of the query only. *)
Lemma checkBondBalance_run :
  Inline.checkBondBalance w bondMintStr (begin s)
  = (Ok tt,
     {| tick := S (tick s);
        trace :=
          [EGetParsedTokenAccountsByOwner owner mint
             (getParsedTokenAccountsByOwner conn (tick s) owner mint)];
        loading := loading s;
        bondBalance :=
          match getParsedTokenAccountsByOwner conn (tick s) owner mint with
          | Ok (first :: _) => uiAmount first
          | Ok [] => Some 0%Q
          | Throw _ => Some 0%Q
          end;
        formData := formData s |}).
Proof.
  unfold Inline.checkBondBalance.
  rewrite wallet_connected, node_connected.
  unfold_monad. rewrite mint_parses. simpl.
  destruct (getParsedTokenAccountsByOwner conn (tick s) owner mint)
    as [[|first rest]|e]; reflexivity.
Qed.

End BalancePrecondition.

(** C7.  When the token-account query succeeds with an empty list,
    [checkBondBalance] returns normally and sets the balance to 0. *)
Theorem checkBondBalance_no_account_is_zero
    {L : Web3Lib} (w : World) (s : State) (bondMintStr : string)
    (owner mint : PublicKey) (conn : Connection) :
  publicKey (wallet w) = Some owner ->
  connection w = Some conn ->
  PublicKey_new bondMintStr = Ok mint ->
  getParsedTokenAccountsByOwner conn (tick s) owner mint = Ok [] ->
  outcome (Inline.checkBondBalance w bondMintStr) s = Ok tt /\
  bondBalance (final (Inline.checkBondBalance w bondMintStr) s) = Some 0%Q.
Proof.
  intros Hw Hc Hm Hq. unfold outcome, final.
  rewrite (checkBondBalance_run w s bondMintStr Hw Hc Hm), Hq.
  split; reflexivity.
Qed.

(** C9.  When the token-account query throws, [checkBondBalance] returns
    normally with the balance set to 0; its result and the component state
    it leaves are those of a run, from the same state, in which the query
    found no account. *)
Theorem checkBondBalance_failed_query_reads_as_zero
    {L : Web3Lib} (w w0 : World) (s : State) (bondMintStr : string)
    (owner mint : PublicKey) (conn conn0 : Connection) (e : exn) :
  publicKey (wallet w) = Some owner ->
  connection w = Some conn ->
  PublicKey_new bondMintStr = Ok mint ->
  getParsedTokenAccountsByOwner conn (tick s) owner mint = Throw e ->
  publicKey (wallet w0) = Some owner ->
  connection w0 = Some conn0 ->
  getParsedTokenAccountsByOwner conn0 (tick s) owner mint = Ok [] ->
  let failed := Inline.checkBondBalance w bondMintStr in
  let empty := Inline.checkBondBalance w0 bondMintStr in
  outcome failed s = Ok tt /\
  bondBalance (final failed s) = Some 0%Q /\
  outcome failed s = outcome empty s /\
  bondBalance (final failed s) = bondBalance (final empty s) /\
  loading (final failed s) = loading (final empty s) /\
  formData (final failed s) = formData (final empty s).
Proof.
  intros Hw Hc Hm Hq Hw0 Hc0 Hq0 failed empty.
  unfold failed, empty, outcome, final.
  rewrite (checkBondBalance_run w s bondMintStr Hw Hc Hm), Hq.
  rewrite (checkBondBalance_run w0 s bondMintStr Hw0 Hc0 Hm), Hq0.
  repeat split; reflexivity.
Qed.

(** C10.  When the token-account query answers a non-empty list,
    [checkBondBalance] sets the balance to the amount of the first account,
    whatever the later accounts are; whenever the later accounts hold a
    non-zero total, the balance it sets is not the sum over all accounts. *)
Theorem checkBondBalance_first_account_only
    {L : Web3Lib} (w : World) (s : State) (bondMintStr : string)
    (owner mint : PublicKey) (conn : Connection)
    (first : TokenAccount) (rest : list TokenAccount) :
  publicKey (wallet w) = Some owner ->
  connection w = Some conn ->
  PublicKey_new bondMintStr = Ok mint ->
  getParsedTokenAccountsByOwner conn (tick s) owner mint = Ok (first :: rest) ->
  outcome (Inline.checkBondBalance w bondMintStr) s = Ok tt /\
  bondBalance (final (Inline.checkBondBalance w bondMintStr) s)
  = uiAmount first /\
  (forall q,
      bondBalance (final (Inline.checkBondBalance w bondMintStr) s) = Some q ->
      ~ (total_uiAmount rest == 0)%Q ->
      ~ (q == total_uiAmount (first :: rest))%Q).
Proof.
  intros Hw Hc Hm Hq. unfold outcome, final.
  rewrite (checkBondBalance_run w s bondMintStr Hw Hc Hm), Hq. simpl.
  repeat split.
  intros q Hfirst Hrest Hsum. rewrite Hfirst in Hsum. apply Hrest.
  apply (Qplus_inj_l _ _ q). rewrite <- Hsum. ring.
Qed.

(* ------------------------------------------------------------------ *)
(** ** The create-stablecoin instruction builder *)

(** Whatever is bound under the seven names, the builder orders the keys as
    the program interface lists them. *)
Lemma resolve_createStablecoin_accounts (a d m b t sy r : PublicKey) :
  resolve_accounts (idl_accounts IDL_createStablecoin)
    [("authority", a); ("stablecoinData", d); ("stablecoinMint", m);
     ("bondMint", b); ("tokenProgram", t); ("systemProgram", sy); ("rent", r)]
  = Ok [a; d; m; b; t; sy; r].
Proof. reflexivity. Qed.


(* ------------------------------------------------------------------ *)
(** ** Order of the steps of a run *)



(** Symbolic execution of a flow from [begin s]: unfold the flow and the
    monad, compute the state, and split on the answer of every oracle. *)
Ltac step_flow :=
  lazy beta iota zeta delta
    [events outcome final begin
     Inline.handleSubmit ViaProgram.handleSubmit
     StablecoinProgram.sendTransaction StablecoinProgram.new
     Inline.program Inline.check_confirmation Inline.createStablecoin_accounts
     instruction accounts methods_createStablecoin
     resolve_accounts get_account String.eqb Ascii.eqb Bool.eqb
     bind try_catch try_finally await emit generate lift ret throw
     setLoading setBondBalance setFormData toast_error toast_success
     get_formData
     tick trace loading bondBalance formData fst snd app
     mb_ix mb_args mb_accounts idl_name idl_accounts IDL_createStablecoin];
  cbn [publicKey wallet_sendTransaction signTransaction
       StablecoinProgram.this_connection StablecoinProgram.this_anchorWallet
       StablecoinProgram.aw_publicKey StablecoinProgram.aw_signTransaction].

Ltac break_inner :=
  match goal with
  | |- context [match ?x with _ => _ end] =>
      lazymatch x with
      | context [match _ with _ => _ end] => fail
      | _ => destruct x eqn:?
      end
  end.

Ltac run_flow := step_flow; repeat (break_inner; step_flow).

(** Membership in an explicit trace. *)
Ltac in_trace H :=
  simpl In in H;
  repeat match type of H with
         | _ \/ _ => destruct H as [H|H]
         | False => contradiction
         | @eq Event _ _ => first [discriminate H | inversion H; subst; clear H]
         end.


(* ------------------------------------------------------------------ *)
(** ** The assembled transaction *)

(** C4.  For a form whose bond mint is an address and whose arguments
    encode, once the blockhash and the rent are fetched, [handleSubmit]
    appends exactly three instructions, create-account, initialize-mint,
    create-stablecoin, in this order, and hands the wallet a transaction that
    holds exactly these three. *)
Theorem handleSubmit_assembles_three_instructions
    {L : Web3Lib} (w : World) (s : State)
    (owner bond : PublicKey) (conn : Connection)
    (latest : BlockhashWithExpiryBlockHeight) (mintRent : N) (data : list N) :
  let form := formData s in
  let stablecoinMint := Keypair_generate w (tick s) in
  let stablecoinData := Keypair_generate w (S (tick s)) in
  let args :=
    [VString (name form); VString (symbol form); VNumber 6;
     VString (or_string (icon form) ""); VString (currency form)] in
  let ixs :=
    [SystemProgram_createAccount owner (kp_publicKey stablecoinMint)
       MINT_SIZE mintRent TOKEN_PROGRAM_ID;
     createInitializeMintInstruction (kp_publicKey stablecoinMint) 6
       owner owner;
     ProgramInstruction PROGRAM_ID "createStablecoin" args
       [owner; kp_publicKey stablecoinData; kp_publicKey stablecoinMint; bond;
        TOKEN_PROGRAM_ID; SystemProgram_programId; SYSVAR_RENT_PUBKEY]
       data] in
  publicKey (wallet w) = Some owner ->
  connection w = Some conn ->
  getLatestBlockhash conn (S (S (tick s))) = Ok latest ->
  getMinimumBalanceForRentExemption conn (S (S (S (tick s)))) MINT_SIZE
  = Ok mintRent ->
  PublicKey_new (bondMint form) = Ok bond ->
  coder_encode "createStablecoin" args = Ok data ->
  added_instructions (events (Inline.handleSubmit w) s) = ixs /\
  map kind ixs = [CreateAccount; InitializeMint; CreateStablecoin] /\
  exists tx r,
    In (EWalletSendTransaction tx [stablecoinMint; stablecoinData] r)
       (events (Inline.handleSubmit w) s) /\
    instructions tx = ixs.
Proof.
  destruct s as [t tr ld bal form0]. simpl.
  intros Hw Hc Hlatest Hrent Hbond Hdata.
  step_flow. rewrite Hw, Hc. step_flow. rewrite Hlatest. step_flow.
  rewrite Hrent. step_flow. rewrite Hbond. step_flow. rewrite Hdata.
  step_flow.
  repeat (break_inner; step_flow);
    (split; [reflexivity | split; [reflexivity |]]);
    eexists; eexists; (split; [simpl; do 7 right; left; reflexivity
                             | reflexivity]).
Qed.

(* ------------------------------------------------------------------ *)
(** ** Decimals *)

(** The decimals value of each listing, whatever the form and the world
    are: every decimals value the assembling flow hands over is the literal
    6, so the one of initialize-mint equals the one of the create-stablecoin
    instruction; every decimals value the delegating flow hands over is the
    literal 9. *)
Theorem decimals_constant_within_each_flow
    {L : Web3Lib} (w : World) (s : State) :
  Forall (fun d => d = 6) (decimals_used (events (Inline.handleSubmit w) s)) /\
  (forall d1 d2,
      In d1 (initializeMint_decimals
               (added_instructions (events (Inline.handleSubmit w) s))) ->
      In d2 (createStablecoin_decimals
               (added_instructions (events (Inline.handleSubmit w) s))) ->
      d1 = d2) /\
  Forall (fun d => d = 9)
         (decimals_used (events (ViaProgram.handleSubmit w) s)).
Proof.
  destruct s as [t tr ld bal form].
  split; [| split].
  - run_flow; simpl; repeat constructor.
  - run_flow; simpl; intros d1 d2 H1 H2; intuition congruence.
  - run_flow; simpl; repeat constructor.
Qed.

(* ------------------------------------------------------------------ *)
(** ** Validation of the bond mint *)

(** The delegating flow checks the bond mint first: a form whose bond mint
    is not an address ends the run with a toast and without any network
    call. *)
Lemma ViaProgram_rejects_bond_mint_before_network
    {L : Web3Lib} (w : World) (s : State)
    (owner : PublicKey) (conn : Connection) (e : exn) :
  publicKey (wallet w) = Some owner ->
  connection w = Some conn ->
  PublicKey_new (bondMint (formData s)) = Throw e ->
  network_calls (events (ViaProgram.handleSubmit w) s) = [] /\
  In (EToastError "Invalid bond mint address. Please select a valid bond.")
     (events (ViaProgram.handleSubmit w) s).
Proof.
  destruct s as [t tr ld bal form]. simpl. intros Hw Hc Hbond.
  step_flow. rewrite Hw, Hc. step_flow. rewrite Hbond. step_flow.
  split; [reflexivity | simpl; tauto].
Qed.

(** C2, on the assembling flow.  With wallet and node connected, a form
    whose bond mint is not an address does not stop [handleSubmit] before
    the network: the run fetches a blockhash, and when that succeeds queries
    the rent, before the address is parsed and the error is shown. *)
Theorem handleSubmit_parses_bond_mint_after_network_calls
    {L : Web3Lib} (w : World) (s : State)
    (owner : PublicKey) (conn : Connection) (e : exn) :
  publicKey (wallet w) = Some owner ->
  connection w = Some conn ->
  PublicKey_new (bondMint (formData s)) = Throw e ->
  let fetched := getLatestBlockhash conn (S (S (tick s))) in
  let rent :=
    getMinimumBalanceForRentExemption conn (S (S (S (tick s)))) MINT_SIZE in
  network_calls (events (Inline.handleSubmit w) s)
  = match fetched with
    | Ok _ =>
        [EGetLatestBlockhash fetched;
         EGetMinimumBalanceForRentExemption MINT_SIZE rent]
    | Throw _ => [EGetLatestBlockhash fetched]
    end /\
  (forall latest mintRent,
      fetched = Ok latest -> rent = Ok mintRent ->
      events (Inline.handleSubmit w) s
      = [EKeypairGenerate (Keypair_generate w (tick s));
         EKeypairGenerate (Keypair_generate w (S (tick s)));
         EGetLatestBlockhash (Ok latest);
         ENewTransaction owner (blockhash latest) (lastValidBlockHeight latest);
         EGetMinimumBalanceForRentExemption MINT_SIZE (Ok mintRent);
         EToastError (Inline.errorMessage e)]).
Proof.
  destruct s as [t tr ld bal form]. simpl. intros Hw Hc Hbond.
  split.
  - step_flow. rewrite Hw, Hc. step_flow.
    destruct (getLatestBlockhash conn (S (S t))) as [latest|e1]; step_flow;
      [| reflexivity].
    destruct (getMinimumBalanceForRentExemption conn (S (S (S t))) MINT_SIZE)
      as [mintRent|e2]; step_flow; [| reflexivity].
    rewrite Hbond. step_flow. reflexivity.
  - intros latest mintRent Hlatest Hrent.
    step_flow. rewrite Hw, Hc. step_flow. rewrite Hlatest. step_flow.
    rewrite Hrent. step_flow. rewrite Hbond. step_flow. reflexivity.
Qed.

(* ------------------------------------------------------------------ *)
(** ** Confirmation *)

(** C8, at an object payload.  A confirmed program error that is an object
    makes the flow raise an error whose message is the same for every
    payload, and this message is what the toast shows. *)
Theorem confirmed_object_error_loses_payload
    (fields : list (string * Json)) (s : State) :
  Inline.check_confirmation {| err := Some (TxErrObject fields) |} s
  = (Throw (ErrorObj "Transaction failed: [object Object]"), s) /\
  Inline.errorMessage (ErrorObj "Transaction failed: [object Object]")
  = "Transaction failed: [object Object]".
Proof. split; reflexivity. Qed.

(** The outcomes of a confirmed transaction: a truthy error raises with the
    error's string form, anything else is reported as success. *)
Lemma check_confirmation_outcomes (confirmation : SignatureResult) (s : State) :
  (exists e,
      err confirmation = Some e /\ truthy_err e = true /\
      Inline.check_confirmation confirmation s
      = (Throw (ErrorObj ("Transaction failed: "
                            ++ TransactionError_toString e)), s))
  \/
  ((err confirmation = None \/ err confirmation = Some (TxErrString "")) /\
   Inline.check_confirmation confirmation s
   = toast_success "Stablecoin created successfully!" s).
Proof.
  unfold Inline.check_confirmation.
  destruct (err confirmation) as [[[|c str]|fields]|].
  - right. split; [right|]; reflexivity.
  - left. eexists. repeat split.
  - left. eexists. repeat split.
  - right. split; [left|]; reflexivity.
Qed.

Ltac find_in := simpl In; repeat first [left; reflexivity | right].

(** C6.  In every run of [handleSubmit] and of
    [StablecoinProgram.sendTransaction] that reaches confirmation, the run
    made exactly one blockhash fetch, the blockhash and the last valid block
    height passed to [confirmTransaction] are the pair this fetch answered,
    and the transaction that was bound, signed and broadcast for the
    confirmed signature carries the blockhash of the same fetch. *)
Theorem confirmation_uses_the_fetched_pair {L : Web3Lib} :
  (forall (w : World) (s : State) sig bh lvh r,
      In (EConfirmTransaction sig bh lvh r)
         (events (Inline.handleSubmit w) s) ->
      exists latest tx signers,
        blockhash_fetches (events (Inline.handleSubmit w) s) = [Ok latest] /\
        bh = blockhash latest /\
        lvh = lastValidBlockHeight latest /\
        In (EWalletSendTransaction tx signers (Ok sig))
           (events (Inline.handleSubmit w) s) /\
        recentBlockhash tx = Some (blockhash latest) /\
        tx_lastValidBlockHeight tx = Some (lastValidBlockHeight latest))
  /\
  (forall (this : StablecoinProgram.t) (transaction : Transaction)
          (s : State) sig bh lvh r,
      let run := StablecoinProgram.sendTransaction this transaction in
      In (EConfirmTransaction sig bh lvh r) (events run s) ->
      exists latest signed,
        let bound :=
          set_feePayer
            (set_recentBlockhash transaction (blockhash latest))
            (StablecoinProgram.aw_publicKey
               (StablecoinProgram.this_anchorWallet this)) in
        blockhash_fetches (events run s) = [Ok latest] /\
        bh = blockhash latest /\
        lvh = lastValidBlockHeight latest /\
        recentBlockhash bound = Some (blockhash latest) /\
        In (ESignTransaction bound (Ok signed)) (events run s) /\
        In (ESendRawTransaction signed (Ok sig)) (events run s)).
Proof.
  split.
  - intros w [t tr ld bal form] sig bh lvh r. run_flow; intros H; in_trace H;
      do 3 eexists;
      (split; [reflexivity |]); (split; [reflexivity |]);
      (split; [reflexivity |]); (split; [find_in |]); split; reflexivity.
  - intros this transaction [t tr ld bal form] sig bh lvh r run. unfold run.
    run_flow; intros H; in_trace H;
      do 2 eexists;
      (split; [reflexivity |]); (split; [reflexivity |]);
      (split; [reflexivity |]); (split; [reflexivity |]); split; find_in.
Qed.

(* ================================================================== *)
(** * The flows on the sample world *)

Section Runs.

Import Sample.
#[local] Existing Instance Sample.lib.

(** C1, on the code.  The decimals value is not one constant across the
    code paths of the creation flow: on the same world and the same form,
    the delegating listing hands over 9 where the assembling listing hands
    over 6 (to initialize-mint and to the create-stablecoin instruction). *)
Lemma decimals_differ_between_flows :
  ~ (forall d1 d2,
        In d1 (decimals_used
                 (events (ViaProgram.handleSubmit happy)
                         (submitted bond_address))) ->
        In d2 (decimals_used
                 (events (Inline.handleSubmit happy)
                         (submitted bond_address))) ->
        d1 = d2).
Proof.
  intro H.
  assert (H9 : decimals_used
                 (events (ViaProgram.handleSubmit happy)
                         (submitted bond_address)) = [9])
    by (vm_compute; reflexivity).
  assert (H6 : decimals_used
                 (events (Inline.handleSubmit happy)
                         (submitted bond_address)) = [6; 6])
    by (vm_compute; reflexivity).
  rewrite H9, H6 in H.
  specialize (H 9 6 (or_introl eq_refl) (or_introl eq_refl)).
  discriminate H.
Qed.


Lemma handleSubmit_parses_bond_mint_after_network_calls_witness :
  network_calls (events (Inline.handleSubmit happy)
                        (submitted "not-an-address"))
  = [EGetLatestBlockhash
       (Ok {| blockhash := "Chash"; lastValidBlockHeight := 1002 |});
     EGetMinimumBalanceForRentExemption 82 (Ok 1461600%N)].
Proof.
  exact (proj1 (@handleSubmit_parses_bond_mint_after_network_calls
                  lib happy (submitted "not-an-address") alice
                  (node confirmed_ok (Ok []))
                  (ErrorObj "Non-base58 character")
                  eq_refl eq_refl eq_refl)).
Defined.

Lemma handleSubmit_assembles_three_instructions_witness :
  map kind
      (added_instructions
         (events (Inline.handleSubmit happy) (submitted bond_address)))
  = [CreateAccount; InitializeMint; CreateStablecoin].
Proof.
  destruct (@handleSubmit_assembles_three_instructions
              lib happy (submitted bond_address) alice (key_of bond_address)
              (node confirmed_ok (Ok []))
              {| blockhash := "Chash"; lastValidBlockHeight := 1002 |}
              1461600%N
              [11; 0; 0; 0; 80; 101; 115; 111; 32; 83; 116; 97; 98; 108;
               101; 4; 0; 0; 0; 77; 88; 78; 83; 6; 0; 0; 0; 0; 3; 0; 0; 0;
               77; 88; 78]%N
              eq_refl eq_refl eq_refl eq_refl eq_refl eq_refl)
    as [Hadded [Hkinds _]].
  rewrite Hadded. exact Hkinds.
Defined.


Lemma confirmation_uses_the_fetched_pair_witness :
  exists latest tx signers,
    blockhash_fetches
      (events (Inline.handleSubmit happy) (submitted bond_address))
    = [Ok latest] /\
    "Chash" = blockhash latest /\
    1002%N = lastValidBlockHeight latest /\
    In (EWalletSendTransaction tx signers (Ok "sig"))
       (events (Inline.handleSubmit happy) (submitted bond_address)) /\
    recentBlockhash tx = Some (blockhash latest) /\
    tx_lastValidBlockHeight tx = Some (lastValidBlockHeight latest).
Proof.
  apply (proj1 (@confirmation_uses_the_fetched_pair lib)
               happy (submitted bond_address) "sig" "Chash" 1002%N
               confirmed_ok).
  vm_compute. do 8 right. left. reflexivity.
Defined.

Lemma checkBondBalance_no_account_is_zero_witness :
  outcome (Inline.checkBondBalance happy bond_address)
          (submitted bond_address) = Ok tt /\
  bondBalance (final (Inline.checkBondBalance happy bond_address)
                     (submitted bond_address)) = Some 0%Q.
Proof.
  exact (@checkBondBalance_no_account_is_zero
           lib happy (submitted bond_address) bond_address alice
           (key_of bond_address) (node confirmed_ok (Ok []))
           eq_refl eq_refl eq_refl eq_refl).
Defined.

Lemma checkBondBalance_failed_query_reads_as_zero_witness :
  let failing :=
    world confirmed_ok (Throw (ErrorObj "429 Too Many Requests")) in
  outcome (Inline.checkBondBalance failing bond_address)
          (submitted bond_address) = Ok tt /\
  bondBalance (final (Inline.checkBondBalance failing bond_address)
                     (submitted bond_address))
  = bondBalance (final (Inline.checkBondBalance happy bond_address)
                       (submitted bond_address)).
Proof.
  intro failing.
  destruct (@checkBondBalance_failed_query_reads_as_zero
              lib failing happy (submitted bond_address) bond_address alice
              (key_of bond_address)
              (node confirmed_ok (Throw (ErrorObj "429 Too Many Requests")))
              (node confirmed_ok (Ok []))
              (ErrorObj "429 Too Many Requests")
              eq_refl eq_refl eq_refl eq_refl eq_refl eq_refl eq_refl)
    as (Hout & _ & _ & Hbal & _).
  split; [exact Hout | exact Hbal].
Defined.

Lemma checkBondBalance_first_account_only_witness :
  let holder := world confirmed_ok (Ok two_accounts) in
  bondBalance (final (Inline.checkBondBalance holder bond_address)
                     (submitted bond_address)) = Some (3 # 2)%Q /\
  ~ ((3 # 2) == total_uiAmount two_accounts)%Q.
Proof.
  intro holder.
  destruct (@checkBondBalance_first_account_only
              lib holder (submitted bond_address) bond_address alice
              (key_of bond_address) (node confirmed_ok (Ok two_accounts))
              {| uiAmount := Some (3 # 2)%Q |}
              [{| uiAmount := Some (5 # 2)%Q |}]
              eq_refl eq_refl eq_refl eq_refl)
    as (_ & Hbal & Hsum).
  split; [exact Hbal |].
  apply (Hsum (3 # 2)%Q Hbal). vm_compute. discriminate.
Defined.

(** Two different program errors give the same toast. *)
Example program_error_toast (code : Z) :
  last (events
          (Inline.handleSubmit
             (world (Ok {| err := Some (custom_error code) |}) (Ok [])))
          (submitted bond_address))
       (EToastSuccess "")
  = EToastError "Transaction failed: [object Object]".
Proof. vm_compute. reflexivity. Qed.

(** A string error is shown as it is. *)
Example string_error_toast :
  last (events
          (Inline.handleSubmit
             (world (Ok {| err := Some (TxErrString "AccountInUse") |})
                    (Ok [])))
          (submitted bond_address))
       (EToastSuccess "")
  = EToastError "Transaction failed: AccountInUse".
Proof. vm_compute. reflexivity. Qed.

(** The delegating flow on the same invalid form: no network call. *)
Example ViaProgram_invalid_bond_mint :
  events (ViaProgram.handleSubmit happy) (submitted "not-an-address")
  = [EKeypairGenerate (kp 0); EKeypairGenerate (kp 1);
     EToastError "Invalid bond mint address. Please select a valid bond."].
Proof. vm_compute. reflexivity. Qed.

End Runs.

(* ================================================================== *)
(** * Further properties of the code *)

(* ------------------------------------------------------------------ *)
(** ** The bond catalog *)

Lemma truthy_string_nonempty (x : string) :
  truthy_string x = true -> x <> "".
Proof. destruct x; [discriminate | intros _ H; discriminate H]. Qed.

Lemma or_default_nonempty (v : option string) (d : string) :
  d <> "" -> BondCatalog.or_default v d <> "".
Proof.
  intros Hd. destruct v as [x|]; simpl; [| exact Hd].
  unfold or_string. destruct (truthy_string x) eqn:Hx; [| exact Hd].
  apply truthy_string_nonempty; exact Hx.
Qed.

Lemma formatBond_valid {L : Web3Lib} (bond : BondCatalog.RawBond)
    (b : BondCatalog.Bond) :
  BondCatalog.formatBond bond = Some b -> BondCatalog.valid_bond b.
Proof.
  unfold BondCatalog.formatBond.
  destruct (BondCatalog.optional_field bond BondCatalog.address)
    as [mintString|]; [| discriminate].
  destruct (truthy_string mintString) eqn:Htruthy; [| discriminate].
  destruct (PublicKey_new mintString) as [pk|e] eqn:Hpk; [| discriminate].
  intros H. injection H as <-. unfold BondCatalog.valid_bond; simpl.
  split; [exists pk; exact Hpk |].
  split; [apply truthy_string_nonempty; exact Htruthy |].
  split; apply or_default_nonempty; discriminate.
Qed.

Lemma In_filter_Boolean {A} (a : A) (l : list (option A)) :
  In a (BondCatalog.filter_Boolean l) <-> In (Some a) l.
Proof.
  induction l as [|[x|] l IH]; simpl.
  - tauto.
  - rewrite IH. split; intros [H|H]; auto; left; congruence.
  - rewrite IH. split; [auto | intros [H|H]; [discriminate | exact H]].
Qed.

Lemma formatted_bonds_valid {L : Web3Lib} (bonds : list BondCatalog.RawBond) :
  Forall BondCatalog.valid_bond
         (BondCatalog.filter_Boolean (map BondCatalog.formatBond bonds)).
Proof.
  apply Forall_forall. intros b Hb.
  apply In_filter_Boolean in Hb. apply in_map_iff in Hb.
  destruct Hb as (bond & Hfmt & _). exact (formatBond_valid bond Hfmt).
Qed.

(** X1.  [fetchBonds] keeps the list of offered bonds valid: if every bond
    on offer has a mint the [PublicKey] constructor accepts and a non-empty
    name and symbol, the same holds after [fetchBonds], whatever the catalog
    answers. *)
Theorem fetchBonds_keeps_offer_valid
    {L : Web3Lib} (w : World)
    (getBonds : nat -> result (list BondCatalog.RawBond))
    (c : BondCatalog.Component) :
  Forall BondCatalog.valid_bond (BondCatalog.availableBonds c) ->
  Forall BondCatalog.valid_bond
         (BondCatalog.availableBonds (BondCatalog.fetchBonds w getBonds c)).
Proof.
  intros Hc. unfold BondCatalog.fetchBonds.
  destruct (connection w); [| exact Hc].
  destruct (getBonds (tick (BondCatalog.state c))) as [bonds|e]; simpl.
  - apply formatted_bonds_valid.
  - exact Hc.
Qed.

(** X2.  When the catalog answers, the bonds on offer are replaced by the
    catalog entries whose address is non-empty and accepted by the
    [PublicKey] constructor, in catalog order; entries without mint, without
    address or with a rejected address are dropped silently. *)
Theorem fetchBonds_offers_accepted_addresses_in_order
    {L : Web3Lib} (w : World)
    (getBonds : nat -> result (list BondCatalog.RawBond))
    (c : BondCatalog.Component) (conn : Connection)
    (bonds : list BondCatalog.RawBond) :
  connection w = Some conn ->
  getBonds (tick (BondCatalog.state c)) = Ok bonds ->
  map BondCatalog.mint
      (BondCatalog.availableBonds (BondCatalog.fetchBonds w getBonds c))
  = filter BondCatalog.accepted (BondCatalog.addresses bonds) /\
  trace (BondCatalog.state (BondCatalog.fetchBonds w getBonds c))
  = trace (BondCatalog.state c).
Proof.
  intros Hconn Hbonds. unfold BondCatalog.fetchBonds.
  rewrite Hconn, Hbonds. simpl. split; [| reflexivity].
  clear Hbonds. induction bonds as [|bond bonds IH]; [reflexivity |].
  simpl. unfold BondCatalog.formatBond, BondCatalog.accepted.
  destruct (BondCatalog.optional_field bond BondCatalog.address)
    as [mintString|]; simpl; [| exact IH].
  destruct (truthy_string mintString); simpl; [| exact IH].
  destruct (PublicKey_new mintString); simpl; [f_equal |]; exact IH.
Qed.

(** X3.  When the catalog call throws, [fetchBonds] keeps the bonds on offer
    as they were and shows the toast "Failed to fetch available bonds";
    without a connection it does nothing at all. *)
Theorem fetchBonds_failure_keeps_offer
    {L : Web3Lib} (w : World)
    (getBonds : nat -> result (list BondCatalog.RawBond))
    (c : BondCatalog.Component) :
  (connection w = None -> BondCatalog.fetchBonds w getBonds c = c) /\
  (forall conn e,
      connection w = Some conn ->
      getBonds (tick (BondCatalog.state c)) = Throw e ->
      BondCatalog.availableBonds (BondCatalog.fetchBonds w getBonds c)
      = BondCatalog.availableBonds c /\
      trace (BondCatalog.state (BondCatalog.fetchBonds w getBonds c))
      = (trace (BondCatalog.state c)
           ++ [EToastError "Failed to fetch available bonds"])%list).
Proof.
  unfold BondCatalog.fetchBonds. split.
  - intros ->. reflexivity.
  - intros conn e -> ->. split; reflexivity.
Qed.

(* ------------------------------------------------------------------ *)
(** ** The connection status indicator *)

(** X4.  The status after any number of checks is decided by the last check
    alone: whatever the status was and whatever earlier checks answered, the
    indicator reads "Connected" exactly when the last blockhash fetch
    succeeded. *)
Theorem status_follows_last_check
    (connection : Connection) (n t : nat) (st : ConnectionStatus.RpcStatus) :
  ConnectionStatus.checks connection t (S n) st
  = ConnectionStatus.checkConnection connection (t + n) /\
  (ConnectionStatus.label (ConnectionStatus.checks connection t (S n) st)
   = "Connected"
   <-> exists latest, getLatestBlockhash connection (t + n) = Ok latest).
Proof.
  assert (Hlast :
            ConnectionStatus.checks connection t (S n) st
            = ConnectionStatus.checkConnection connection (t + n)).
  { revert t st. induction n as [|n IH]; intros t st.
    - simpl. rewrite Nat.add_0_r. reflexivity.
    - change (ConnectionStatus.checks connection t (S (S n)) st)
        with (ConnectionStatus.checks connection (S t) (S n)
                (ConnectionStatus.checkConnection connection t)).
      rewrite IH. f_equal. lia. }
  split; [exact Hlast |]. rewrite Hlast.
  unfold ConnectionStatus.checkConnection.
  destruct (getLatestBlockhash connection (t + n)) as [latest|e]; simpl.
  - split; [intros _; exists latest; reflexivity | reflexivity].
  - split; [discriminate | intros [latest H]; discriminate H].
Qed.

(* ------------------------------------------------------------------ *)
(** ** The balance check and the bond selection *)

(** Symbolic execution as [step_flow], with the handlers of this part. *)
Ltac step_handlers :=
  lazy beta iota zeta delta
    [events outcome final begin
     Inline.handleSubmit ViaProgram.handleSubmit
     Inline.checkBondBalance Inline.handleBondSelect
     ViaProgram.handleBondSelect
     StablecoinProgram.sendTransaction StablecoinProgram.new
     Inline.program Inline.check_confirmation Inline.createStablecoin_accounts
     instruction accounts methods_createStablecoin
     resolve_accounts get_account String.eqb Ascii.eqb Bool.eqb
     bind try_catch try_finally await emit generate lift ret throw
     setLoading setBondBalance setFormData toast_error toast_success
     get_formData with_bondBalance with_bondMint truthy_string
     tick trace loading bondBalance formData fst snd app
     mb_ix mb_args mb_accounts idl_name idl_accounts IDL_createStablecoin];
  cbn [publicKey wallet_sendTransaction signTransaction
       StablecoinProgram.this_connection StablecoinProgram.this_anchorWallet
       StablecoinProgram.aw_publicKey StablecoinProgram.aw_signTransaction].

Ltac run_handlers := step_handlers; repeat (break_inner; step_handlers).

(** X5.  [checkBondBalance] never throws and never shows a toast; it leaves
    the loading flag and the form alone, and it makes at most one call, the
    token-account query. *)
Theorem checkBondBalance_is_quiet
    {L : Web3Lib} (w : World) (s : State) (bondMintStr : string) :
  let run := Inline.checkBondBalance w bondMintStr in
  outcome run s = Ok tt /\
  loading (final run s) = loading s /\
  formData (final run s) = formData s /\
  toasts (events run s) = [] /\
  (events run s = [] \/
   exists owner mint r,
     events run s = [EGetParsedTokenAccountsByOwner owner mint r]).
Proof.
  destruct s as [t tr ld bal form]. intro run. unfold run.
  repeat split; run_handlers; try reflexivity;
    first [left; reflexivity | right; do 3 eexists; reflexivity].
Qed.

(** X6.  Without a wallet key or without a connection [checkBondBalance]
    changes nothing; with both, a string the [PublicKey] constructor rejects
    sets the balance to 0 without any query to the node. *)
Theorem checkBondBalance_without_query
    {L : Web3Lib} (w : World) (s : State) (bondMintStr : string) :
  (publicKey (wallet w) = None \/ connection w = None ->
   Inline.checkBondBalance w bondMintStr s = (Ok tt, s)) /\
  (forall owner conn e,
      publicKey (wallet w) = Some owner ->
      connection w = Some conn ->
      PublicKey_new bondMintStr = Throw e ->
      events (Inline.checkBondBalance w bondMintStr) s = [] /\
      bondBalance (final (Inline.checkBondBalance w bondMintStr) s)
      = Some 0%Q).
Proof.
  split.
  - unfold Inline.checkBondBalance.
    intros [H|H]; rewrite H; [| destruct (publicKey (wallet w))]; reflexivity.
  - destruct s as [t tr ld bal form]. intros owner conn e Hw Hc Hbad.
    split; step_handlers; rewrite Hw, Hc; step_handlers; rewrite Hbad;
      reflexivity.
Qed.

(** X7.  Choosing a bond stores it in the form and leaves the other fields;
    the placeholder (the empty value) makes no query and keeps the balance
    on display, any other value continues as [checkBondBalance] on it. *)
Theorem handleBondSelect_updates_form_then_checks
    {L : Web3Lib} (w : World) (s : State) (value : string) :
  let run := Inline.handleBondSelect w value in
  outcome run s = Ok tt /\
  formData (final run s) = with_bondMint (formData s) value /\
  (value = "" ->
   events run s = [] /\ bondBalance (final run s) = bondBalance s) /\
  (value <> "" ->
   events run s = events (Inline.checkBondBalance w value) s /\
   bondBalance (final run s)
   = bondBalance (final (Inline.checkBondBalance w value) s)).
Proof.
  destruct s as [t tr ld bal form]. intro run. unfold run.
  split; [| split; [| split]].
  - destruct value; run_handlers; reflexivity.
  - destruct value; run_handlers; reflexivity.
  - intros ->. split; reflexivity.
  - intros Hvalue. destruct value as [|c value]; [congruence |].
    split; run_handlers; reflexivity.
Qed.

(* ------------------------------------------------------------------ *)
(** ** The assembling flow *)

(** X8.  [handleSubmit] never touches the form or the balance on display;
    once wallet and connection are there it always ends with the loading
    flag cleared, on success and on every failure; without them it only
    shows the toast asking to connect; and when every error the node and the
    wallet answer is an [Error] instance, it returns normally. *)
Theorem handleSubmit_always_settles
    {L : Web3Lib} (w : World) (s : State) :
  let run := Inline.handleSubmit w in
  formData (final run s) = formData s /\
  bondBalance (final run s) = bondBalance s /\
  (publicKey (wallet w) <> None -> connection w <> None ->
   loading (final run s) = false) /\
  (publicKey (wallet w) = None \/ connection w = None ->
   loading (final run s) = loading s /\
   events run s = [EToastError "Please connect your wallet first"]) /\
  (only_Errors_thrown (events run s) -> outcome run s = Ok tt).
Proof.
  destruct s as [t tr ld bal form]. intro run. unfold run.
  repeat split; run_handlers; try reflexivity;
    try (intros; congruence);
    match goal with
    | H : _ \/ _ |- _ => destruct H as [H|H]; discriminate H
    end.
Qed.

(** X9.  A run of [handleSubmit] that saw a confirmation whose error is
    falsy shows the success toast and nothing else; every other run in which
    the errors the node and the wallet answer are [Error] instances shows
    exactly one toast, an error toast. *)
Theorem handleSubmit_shows_one_toast
    {L : Web3Lib} (w : World) (s : State) :
  let tr := events (Inline.handleSubmit w) s in
  (confirmed_without_error tr = true ->
   toasts tr = [EToastSuccess "Stablecoin created successfully!"]) /\
  (confirmed_without_error tr = false ->
   only_Errors_thrown tr ->
   exists msg, toasts tr = [EToastError msg]).
Proof.
  destruct s as [t tr0 ld bal form]. intro tr. unfold tr.
  split; run_handlers; unfold confirmed_without_error, toasts; simpl;
    repeat match goal with
           | H : err _ = _ |- _ => rewrite H
           | H : truthy_err _ = _ |- _ => rewrite H
           end; simpl; intros Hc; try discriminate Hc;
    try intros _;
    first [reflexivity | eexists; reflexivity].
Qed.

(** X10.  The balance on display is advisory: [handleSubmit] does the same
    calls, shows the same toast and ends in the same way whatever balance
    the component holds, zero and "not loaded" included. *)
Theorem handleSubmit_ignores_balance
    {L : Web3Lib} (w : World) (s : State) (balance : option Q) :
  events (Inline.handleSubmit w) (with_bondBalance s balance)
  = events (Inline.handleSubmit w) s /\
  outcome (Inline.handleSubmit w) (with_bondBalance s balance)
  = outcome (Inline.handleSubmit w) s /\
  loading (final (Inline.handleSubmit w) (with_bondBalance s balance))
  = loading (final (Inline.handleSubmit w) s).
Proof.
  destruct s as [t tr ld bal form].
  repeat split; run_handlers; reflexivity.
Qed.

(** X11.  The calls of [handleSubmit] to the node and the wallet are an
    initial part of the pipeline blockhash fetch, rent query, broadcast,
    confirmation: each is made at most once and in this order, nothing is
    broadcast before the rent is known, confirmation is only polled after
    the broadcast, and the balance is never queried. *)
Theorem handleSubmit_pipeline
    {L : Web3Lib} (w : World) (s : State) :
  exists n,
    external_calls (events (Inline.handleSubmit w) s)
    = firstn n [FetchBlockhash; QueryRent; Broadcast; Confirm].
Proof.
  destruct s as [t tr ld bal form].
  run_handlers;
    first [exists 0%nat; reflexivity | exists 1%nat; reflexivity
          | exists 2%nat; reflexivity | exists 3%nat; reflexivity
          | exists 4%nat; reflexivity].
Qed.

(** X12.  When a call to the node or the wallet throws an [Error],
    [handleSubmit] stops there: the failed call is the only failure and the
    last call of the run, and the one toast shown is the error toast with
    that error's message, or "Failed to create stablecoin" when the message
    is empty. *)
Theorem handleSubmit_reports_the_failed_call
    {L : Web3Lib} (w : World) (s : State) (m : string) :
  In (ErrorObj m) (failures (events (Inline.handleSubmit w) s)) ->
  failures (events (Inline.handleSubmit w) s) = [ErrorObj m] /\
  toasts (events (Inline.handleSubmit w) s)
  = [EToastError (or_string m "Failed to create stablecoin")] /\
  exists before call,
    events (Inline.handleSubmit w) s
    = (before
         ++ [call; EToastError (or_string m "Failed to create stablecoin")])%list
    /\
    is_network_call call = true.
Proof.
  destruct s as [t tr ld bal form].
  run_handlers; simpl; intros H;
    repeat match type of H with
           | _ \/ _ => destruct H as [H|H]
           | False => contradiction
           end; subst;
    (split; [reflexivity | split; [reflexivity |]]).
  - eexists [_; _; _; _; _; _; _; _], _. split; reflexivity.
  - eexists [_; _; _; _; _; _; _], _. split; reflexivity.
  - eexists [_; _; _; _], _. split; reflexivity.
  - eexists [_; _], _. split; reflexivity.
Qed.

(** X13.  Whenever [handleSubmit] hands a transaction to the wallet, its fee
    payer is the connected wallet key, its blockhash is the fetched one, the
    signers passed along are exactly the two keypairs generated in this run
    (mint first), and its instructions wire the same accounts: the account
    created is the mint initialised and the mint of the stablecoin, and the
    wallet key is payer, mint authority, freeze authority and authority. *)
Theorem handleSubmit_transaction_wiring
    {L : Web3Lib} (w : World) (s : State)
    (tx : Transaction) (signers : list Keypair)
    (r : result TransactionSignature) :
  In (EWalletSendTransaction tx signers r) (events (Inline.handleSubmit w) s) ->
  let stablecoinMint := Keypair_generate w (tick s) in
  let stablecoinData := Keypair_generate w (S (tick s)) in
  exists owner latest mintRent bond data,
    publicKey (wallet w) = Some owner /\
    PublicKey_new (bondMint (formData s)) = Ok bond /\
    In (EGetLatestBlockhash (Ok latest)) (events (Inline.handleSubmit w) s) /\
    feePayer tx = Some owner /\
    recentBlockhash tx = Some (blockhash latest) /\
    signers = [stablecoinMint; stablecoinData] /\
    instructions tx
    = [SystemProgram_createAccount owner (kp_publicKey stablecoinMint)
         MINT_SIZE mintRent TOKEN_PROGRAM_ID;
       createInitializeMintInstruction (kp_publicKey stablecoinMint) 6
         owner owner;
       ProgramInstruction PROGRAM_ID "createStablecoin"
         [VString (name (formData s)); VString (symbol (formData s));
          VNumber 6; VString (or_string (icon (formData s)) "");
          VString (currency (formData s))]
         [owner; kp_publicKey stablecoinData; kp_publicKey stablecoinMint;
          bond; TOKEN_PROGRAM_ID; SystemProgram_programId; SYSVAR_RENT_PUBKEY]
         data].
Proof.
  destruct s as [t tr ld bal form]. simpl.
  run_handlers; intros H; in_trace H;
    do 5 eexists;
    (split; [reflexivity |]); (split; [reflexivity |]);
    (split; [find_in |]); repeat split; reflexivity.
Qed.

(* ------------------------------------------------------------------ *)
(** ** The delegating flow *)

(** X14.  The delegating [handleSubmit] never throws and never touches the
    balance on display; it resets the form to its initial value exactly when
    the creation call returned, and keeps what the user typed in every other
    case; with wallet and connection there it ends with the loading flag
    cleared. *)
Theorem ViaProgram_handleSubmit_resets_form_on_success_only
    {L : Web3Lib} (w : World) (s : State) :
  let run := ViaProgram.handleSubmit w in
  outcome run s = Ok tt /\
  bondBalance (final run s) = bondBalance s /\
  (delegated_ok (events run s) = true ->
   formData (final run s) = initialFormData) /\
  (delegated_ok (events run s) = false ->
   formData (final run s) = formData s) /\
  (publicKey (wallet w) <> None -> connection w <> None ->
   loading (final run s) = false).
Proof.
  destruct s as [t tr ld bal form]. intro run. unfold run.
  repeat split; run_handlers; simpl; try reflexivity;
    try discriminate; intros; congruence.
Qed.

(** X15.  Every run of the delegating [handleSubmit] shows exactly one
    toast, the success toast exactly when the creation call returned; the
    creation call is the only call of the run and is made at most once. *)
Theorem ViaProgram_handleSubmit_shows_one_toast
    {L : Web3Lib} (w : World) (s : State) :
  let tr := events (ViaProgram.handleSubmit w) s in
  (delegated_ok tr = true ->
   toasts tr = [EToastSuccess "Stablecoin created successfully!"] /\
   external_calls tr = [DelegatedCreate]) /\
  (delegated_ok tr = false ->
   (exists msg, toasts tr = [EToastError msg]) /\
   (external_calls tr = [] \/ external_calls tr = [DelegatedCreate])).
Proof.
  destruct s as [t tr0 ld bal form]. intro tr. unfold tr.
  split; run_handlers; simpl; intros Hd; try discriminate Hd;
    (split; [first [reflexivity | eexists; reflexivity]
            | first [reflexivity | left; reflexivity | right; reflexivity]]).
Qed.

(** X16.  Whenever the delegating [handleSubmit] makes the creation call,
    the bond mint it passes is the parsed form value, the name, symbol, icon
    and currency are the form's, and the data and mint accounts are the
    public keys of the two keypairs generated in this run, which are passed
    as signers, data first. *)
Theorem ViaProgram_creation_call_arguments
    {L : Web3Lib} (w : World) (s : State)
    (params : CreateStablecoinCall) (r : result unit) :
  In (EProgramCreateStablecoin params r)
     (events (ViaProgram.handleSubmit w) s) ->
  let stablecoinData := Keypair_generate w (tick s) in
  let stablecoinMint := Keypair_generate w (S (tick s)) in
  PublicKey_new (bondMint (formData s)) = Ok (call_bondMint params) /\
  call_name params = name (formData s) /\
  call_symbol params = symbol (formData s) /\
  call_iconUrl params = icon (formData s) /\
  call_targetCurrency params = currency (formData s) /\
  call_stablecoinData params = kp_publicKey stablecoinData /\
  call_stablecoinMint params = kp_publicKey stablecoinMint /\
  call_signers params = [stablecoinData; stablecoinMint].
Proof.
  destruct s as [t tr ld bal form]. simpl.
  run_handlers; intros H; in_trace H; repeat split; reflexivity.
Qed.

(** X17.  A bond chosen from the list [fetchBonds] offers always passes the
    address check of the delegating [handleSubmit]: with wallet and
    connection there, the run reaches the creation call and never shows
    "Invalid bond mint address". *)
Theorem offered_bond_reaches_creation_call
    {L : Web3Lib} (w : World)
    (getBonds : nat -> result (list BondCatalog.RawBond))
    (c : BondCatalog.Component) (s : State) (b : BondCatalog.Bond)
    (owner : PublicKey) (conn : Connection) :
  Forall BondCatalog.valid_bond (BondCatalog.availableBonds c) ->
  In b (BondCatalog.availableBonds (BondCatalog.fetchBonds w getBonds c)) ->
  bondMint (formData s) = BondCatalog.mint b ->
  publicKey (wallet w) = Some owner ->
  connection w = Some conn ->
  external_calls (events (ViaProgram.handleSubmit w) s) = [DelegatedCreate] /\
  ~ In (EToastError "Invalid bond mint address. Please select a valid bond.")
       (events (ViaProgram.handleSubmit w) s).
Proof.
  intros Hc Hb Hmint Hw Hconn.
  assert (Hvalid : BondCatalog.valid_bond b).
  { unfold BondCatalog.fetchBonds in Hb. rewrite Hconn in Hb.
    destruct (getBonds (tick (BondCatalog.state c))) as [bonds|e];
      simpl in Hb.
    - exact (proj1 (Forall_forall _ _) (formatted_bonds_valid bonds) b Hb).
    - exact (proj1 (Forall_forall _ _) Hc b Hb). }
  destruct Hvalid as [[pk Hpk] _]. rewrite <- Hmint in Hpk.
  destruct s as [t tr ld bal form]. simpl in Hpk.
  split.
  - step_handlers. rewrite Hw, Hconn. step_handlers. rewrite Hpk.
    run_handlers; reflexivity.
  - step_handlers. rewrite Hw, Hconn. step_handlers. rewrite Hpk.
    run_handlers; simpl; intros H;
      repeat match type of H with
             | _ \/ _ => destruct H as [H|H]
             | False => contradiction
             | @eq Event _ _ => discriminate H
             end.
Qed.

(* ------------------------------------------------------------------ *)
(** ** [StablecoinProgram.sendTransaction] *)

(** X18.  [sendTransaction] shows no toast and hands every failure of the
    node and the wallet on unchanged: an error that the blockhash fetch, the
    wallet, the broadcast or the confirmation answers is the value the
    method throws; when the method returns, no call failed, the value is the
    signature the node answered to the broadcast, and the confirmation of
    that signature was awaited. *)
Theorem sendTransaction_rethrows
    (this : StablecoinProgram.t) (transaction : Transaction) (s : State) :
  let run := StablecoinProgram.sendTransaction this transaction in
  toasts (events run s) = [] /\
  (forall e, In e (failures (events run s)) -> outcome run s = Throw e) /\
  (forall signature,
      outcome run s = Ok signature ->
      failures (events run s) = [] /\
      exists signed bh lvh res,
        In (ESendRawTransaction signed (Ok signature)) (events run s) /\
        In (EConfirmTransaction signature bh lvh (Ok res)) (events run s)).
Proof.
  destruct s as [t tr ld bal form]. intro run. unfold run.
  split; [| split].
  - run_handlers; reflexivity.
  - intros e. run_handlers; simpl; intros H;
      repeat match type of H with
             | _ \/ _ => destruct H as [H|H]
             | False => contradiction
             end; subst; reflexivity.
  - intros signature. run_handlers; intros H; inversion H; subst.
    split; [reflexivity |]. do 4 eexists. split; find_in.
Qed.

(** X19.  [sendTransaction] never inspects the confirmation: whenever the
    confirmation call of a run answers, the method returns the confirmed
    signature, whatever the answer holds, so a confirmation that carries a
    program error is returned like a success. *)
Theorem sendTransaction_ignores_confirmation_error
    (this : StablecoinProgram.t) (transaction : Transaction) (s : State)
    (signature : TransactionSignature) (bh : Blockhash) (lvh : N)
    (res : SignatureResult) :
  let run := StablecoinProgram.sendTransaction this transaction in
  In (EConfirmTransaction signature bh lvh (Ok res)) (events run s) ->
  outcome run s = Ok signature.
Proof.
  destruct s as [t tr ld bal form]. intro run. unfold run.
  run_handlers; intros H; in_trace H; reflexivity.
Qed.

(** X20.  The calls of [sendTransaction] are an initial part of the
    pipeline blockhash fetch, wallet signature, broadcast, confirmation, so
    nothing is broadcast that the wallet did not sign; the transaction the
    wallet is asked to sign keeps the caller's instructions and signatures
    and has the program wallet's key as fee payer. *)
Theorem sendTransaction_pipeline
    (this : StablecoinProgram.t) (transaction : Transaction) (s : State) :
  let run := StablecoinProgram.sendTransaction this transaction in
  (exists n,
      external_calls (events run s)
      = firstn n [FetchBlockhash; WalletSign; Broadcast; Confirm]) /\
  (forall bound r,
      In (ESignTransaction bound r) (events run s) ->
      instructions bound = instructions transaction /\
      signatures bound = signatures transaction /\
      feePayer bound
      = Some (StablecoinProgram.aw_publicKey
                (StablecoinProgram.this_anchorWallet this))) /\
  (forall signed r,
      In (ESendRawTransaction signed r) (events run s) ->
      exists bound, In (ESignTransaction bound (Ok signed)) (events run s)).
Proof.
  destruct s as [t tr ld bal form]. intro run. unfold run.
  split; [| split].
  - run_handlers;
      first [exists 0%nat; reflexivity | exists 1%nat; reflexivity
            | exists 2%nat; reflexivity | exists 3%nat; reflexivity
            | exists 4%nat; reflexivity].
  - intros bound r. run_handlers; intros H; in_trace H;
      repeat split; reflexivity.
  - intros signed r. run_handlers; intros H; in_trace H;
      eexists; find_in.
Qed.

(* ================================================================== *)
(** * The further properties on the sample world *)

Section MoreRuns.

Import Sample.
#[local] Existing Instance Sample.lib.

Lemma fetchBonds_keeps_offer_valid_witness :
  Forall BondCatalog.valid_bond
         (BondCatalog.availableBonds
            (BondCatalog.fetchBonds happy catalog_up mounted)).
Proof.
  apply (@fetchBonds_keeps_offer_valid lib happy catalog_up mounted).
  constructor.
Defined.

Lemma fetchBonds_offers_accepted_addresses_in_order_witness :
  map BondCatalog.mint
      (BondCatalog.availableBonds
         (BondCatalog.fetchBonds happy catalog_up mounted))
  = [bond_address; "TokenkegQfeZyiNwAJbNbGKPFXCWuBvf9Ss623VQ5DA"].
Proof.
  exact (proj1 (@fetchBonds_offers_accepted_addresses_in_order
                  lib happy catalog_up mounted (node confirmed_ok (Ok []))
                  catalog eq_refl eq_refl)).
Defined.

Lemma fetchBonds_failure_keeps_offer_witness :
  BondCatalog.availableBonds
    (BondCatalog.fetchBonds happy catalog_down mounted) = [] /\
  trace (BondCatalog.state
           (BondCatalog.fetchBonds happy catalog_down mounted))
  = [EToastError "Failed to fetch available bonds"].
Proof.
  exact (proj2 (@fetchBonds_failure_keeps_offer
                  lib happy catalog_down mounted)
               (node confirmed_ok (Ok [])) (ErrorObj "503")
               eq_refl eq_refl).
Defined.

Lemma status_follows_last_check_witness :
  ConnectionStatus.label
    (ConnectionStatus.checks flaky 0 4 ConnectionStatus.error)
  = "Connected".
Proof.
  apply (proj2 (proj2 (@status_follows_last_check
                         flaky 3 0 ConnectionStatus.error))).
  eexists. reflexivity.
Defined.

Lemma checkBondBalance_without_query_witness :
  events (Inline.checkBondBalance happy "not-an-address")
         (submitted "not-an-address") = [] /\
  bondBalance (final (Inline.checkBondBalance happy "not-an-address")
                     (submitted "not-an-address")) = Some 0%Q.
Proof.
  exact (proj2 (@checkBondBalance_without_query
                  lib happy (submitted "not-an-address") "not-an-address")
               alice (node confirmed_ok (Ok []))
               (ErrorObj "Non-base58 character") eq_refl eq_refl eq_refl).
Defined.

Lemma handleBondSelect_updates_form_then_checks_witness :
  let holder := world confirmed_ok (Ok two_accounts) in
  bondBalance (final (Inline.handleBondSelect holder bond_address)
                     (submitted ""))
  = bondBalance (final (Inline.checkBondBalance holder bond_address)
                       (submitted "")) /\
  events (Inline.handleBondSelect holder "") (submitted bond_address) = [].
Proof.
  intro holder. split.
  - refine (proj2 (proj2 (proj2 (proj2
              (@handleBondSelect_updates_form_then_checks
                 lib holder (submitted "") bond_address))) _)).
    discriminate.
  - exact (proj1 (proj1 (proj2 (proj2
              (@handleBondSelect_updates_form_then_checks
                 lib holder (submitted bond_address) ""))) eq_refl)).
Defined.

Lemma handleSubmit_always_settles_witness :
  outcome (Inline.handleSubmit refusing) (submitted bond_address) = Ok tt /\
  loading (final (Inline.handleSubmit refusing) (submitted bond_address))
  = false.
Proof.
  destruct (@handleSubmit_always_settles lib refusing (submitted bond_address))
    as (_ & _ & Hloading & _ & Houtcome).
  split.
  - apply Houtcome. intros e He. vm_compute in He.
    destruct He as [<-|[]]. eexists. reflexivity.
  - apply Hloading; discriminate.
Defined.

Lemma handleSubmit_shows_one_toast_witness :
  toasts (events (Inline.handleSubmit happy) (submitted bond_address))
  = [EToastSuccess "Stablecoin created successfully!"] /\
  exists msg,
    toasts (events (Inline.handleSubmit refusing) (submitted bond_address))
    = [EToastError msg].
Proof.
  split.
  - apply (proj1 (@handleSubmit_shows_one_toast lib happy
                    (submitted bond_address))).
    vm_compute. reflexivity.
  - apply (proj2 (@handleSubmit_shows_one_toast lib refusing
                    (submitted bond_address))).
    + vm_compute. reflexivity.
    + intros e He. vm_compute in He.
      destruct He as [<-|[]]. eexists. reflexivity.
Defined.

Lemma handleSubmit_reports_the_failed_call_witness :
  toasts (events (Inline.handleSubmit refusing) (submitted bond_address))
  = [EToastError "User rejected the request."].
Proof.
  refine (proj1 (proj2 (@handleSubmit_reports_the_failed_call
                          lib refusing (submitted bond_address)
                          "User rejected the request." _))).
  vm_compute. left. reflexivity.
Defined.

Lemma handleSubmit_transaction_wiring_witness :
  exists tx signers r,
    In (EWalletSendTransaction tx signers r)
       (events (Inline.handleSubmit happy) (submitted bond_address)) /\
    feePayer tx = Some alice /\
    signers = [kp 0; kp 1].
Proof.
  assert (H : exists tx signers r,
             In (EWalletSendTransaction tx signers r)
                (events (Inline.handleSubmit happy) (submitted bond_address))).
  { do 3 eexists. vm_compute. do 7 right. left. reflexivity. }
  destruct H as (tx & signers & r & H).
  exists tx, signers, r. split; [exact H |].
  destruct (@handleSubmit_transaction_wiring
              lib happy (submitted bond_address) tx signers r H)
    as (owner & latest & mintRent & bond & data
        & Hw & _ & _ & Hfee & _ & Hsigners & _).
  split; [rewrite Hfee; symmetry; exact Hw | exact Hsigners].
Defined.

Lemma ViaProgram_handleSubmit_resets_form_on_success_only_witness :
  formData (final (ViaProgram.handleSubmit happy) (submitted bond_address))
  = initialFormData.
Proof.
  apply (proj1 (proj2 (proj2
           (@ViaProgram_handleSubmit_resets_form_on_success_only
              lib happy (submitted bond_address))))).
  vm_compute. reflexivity.
Defined.

Lemma ViaProgram_handleSubmit_shows_one_toast_witness :
  toasts (events (ViaProgram.handleSubmit happy) (submitted bond_address))
  = [EToastSuccess "Stablecoin created successfully!"] /\
  external_calls
    (events (ViaProgram.handleSubmit happy) (submitted bond_address))
  = [DelegatedCreate].
Proof.
  apply (proj1 (@ViaProgram_handleSubmit_shows_one_toast
                  lib happy (submitted bond_address))).
  vm_compute. reflexivity.
Defined.

Lemma ViaProgram_creation_call_arguments_witness :
  exists params r,
    In (EProgramCreateStablecoin params r)
       (events (ViaProgram.handleSubmit happy) (submitted bond_address)) /\
    call_name params = "Peso Stable" /\
    call_signers params = [kp 0; kp 1].
Proof.
  assert (H : exists params r,
             In (EProgramCreateStablecoin params r)
                (events (ViaProgram.handleSubmit happy)
                        (submitted bond_address))).
  { do 2 eexists. vm_compute. do 2 right. left. reflexivity. }
  destruct H as (params & r & H).
  exists params, r. split; [exact H |].
  destruct (@ViaProgram_creation_call_arguments
              lib happy (submitted bond_address) params r H)
    as (_ & Hname & _ & _ & _ & _ & _ & Hsigners).
  split; [exact Hname | exact Hsigners].
Defined.

Lemma offered_bond_reaches_creation_call_witness :
  external_calls
    (events (ViaProgram.handleSubmit happy) (submitted bond_address))
  = [DelegatedCreate].
Proof.
  refine (proj1 (@offered_bond_reaches_creation_call
                   lib happy catalog_up mounted (submitted bond_address)
                   {| BondCatalog.mint := bond_address;
                      BondCatalog.name := "CETES";
                      BondCatalog.symbol := "CETES" |}
                   alice (node confirmed_ok (Ok []))
                   (Forall_nil _) _ eq_refl eq_refl eq_refl)).
  vm_compute. left. reflexivity.
Defined.

Lemma sendTransaction_rethrows_witness :
  outcome (StablecoinProgram.sendTransaction
             (signing_program_on (Throw (ErrorObj "block height exceeded")))
             empty_transaction)
          (submitted "")
  = Throw (ErrorObj "block height exceeded").
Proof.
  apply (proj1 (proj2 (@sendTransaction_rethrows
                         (signing_program_on
                            (Throw (ErrorObj "block height exceeded")))
                         empty_transaction (submitted "")))).
  vm_compute. left. reflexivity.
Defined.

Lemma sendTransaction_ignores_confirmation_error_witness :
  outcome (StablecoinProgram.sendTransaction
             (signing_program_on (Ok {| err := Some (custom_error 6000) |}))
             empty_transaction)
          (submitted "")
  = Ok "sig".
Proof.
  apply (@sendTransaction_ignores_confirmation_error
           (signing_program_on (Ok {| err := Some (custom_error 6000) |}))
           empty_transaction (submitted "")
           "sig" "Ahash" 1000%N {| err := Some (custom_error 6000) |}).
  vm_compute. do 5 right. left. reflexivity.
Defined.

Lemma sendTransaction_pipeline_witness :
  exists bound,
    In (ESignTransaction bound
          (Ok (set_feePayer (set_recentBlockhash empty_transaction "Ahash")
                            alice)))
       (events (StablecoinProgram.sendTransaction (program_on confirmed_ok)
                  empty_transaction)
               (submitted "")).
Proof.
  refine (proj2 (proj2 (@sendTransaction_pipeline
                          (program_on confirmed_ok) empty_transaction
                          (submitted "")))
                (set_feePayer (set_recentBlockhash empty_transaction "Ahash")
                              alice)
                (Ok "sig") _).
  vm_compute. do 4 right. left. reflexivity.
Defined.

End MoreRuns.
